(** * Document analyzer service (app/main.py): shallow embedding and properties

    The service is orchestration glue around a text splitter, an embedding
    provider, a FAISS vector store and a retrieval chain.  The repository's
    own functions ([load_config], [setup_llm], [initialize_vector_store],
    [process_document], [analyze_document], [query_documents], [read_root])
    are embedded as computations in a state-and-exception monad; the
    third-party collaborators are the fields of a record [Externals] over
    which every definition is parametrised. *)

From Stdlib Require Import QArith.
From stdpp Require Import gmap strings list fin_maps.
From Stdlib.Strings Require Import Byte.

Set Warnings "-register-all".

Local Open Scope Z_scope.
Local Open Scope string_scope.

(** ** Python values *)

(** Classes of the exceptions that the modelled code can observe.  Every
    value of [exn] stands for an instance of Python's [Exception]. *)
Inductive exn_class :=
| FileNotFoundError
| YAMLError
| KeyError
| TypeError
| ValueError
| UnicodeDecodeError
| LibraryError.

#[global] Instance exn_class_eq_dec : EqDecision exn_class.
Proof. solve_decision. Defined.

(** An exception: its class and the text that [str(e)] yields. *)
Record exn := Exn { exn_cls : exn_class; str_e : string }.

(** JSON-serialisable values as they occur in the responses. *)
Inductive json :=
| JStr (s : string)
| JObj (fields : list (string * json)).

(** A Python [Dict] with string keys, in insertion order. *)
Definition Dict : Type := list (string * json).

(** What [yaml.safe_load] can return. *)
Inductive yaml :=
| YNull
| YBool (b : bool)
| YInt (z : Z)
| YStr (s : string)
| YOther (type_name : string)
| YSeq (items : list yaml)
| YMap (items : list (yaml * yaml)).

(** An uploaded file: its name and the outcome of [await file.read()]. *)
Record UploadFile := { filename : string; read : exn + list byte }.

Inductive body :=
| JSONBody (content : json)
| HTMLBody (content : string).

Record Response := { status_code : Z; content : body }.

(** [JSONResponse(content=..., status_code=...)]; the status defaults to 200. *)
Definition JSONResponse (status : Z) (c : json) : Response :=
  {| status_code := status; content := JSONBody c |}.

Inductive level := DEBUG | ERROR.

(** ** UTF-8 decoding ([bytes.decode("utf-8")], strict) *)

Definition in_range (lo hi b : N) : bool := ((lo <=? b) && (b <=? hi))%N.

Definition is_cont (b : N) : bool := in_range 128 191 b.

(** Well-formed UTF-8 byte sequences: no overlong forms, no surrogates,
    nothing above U+10FFFF. *)
Fixpoint utf8_valid (bs : list N) : bool :=
  match bs with
  | [] => true
  | b0 :: r0 =>
    if (b0 <=? 127)%N then utf8_valid r0
    else match r0 with
    | [] => false
    | b1 :: r1 =>
      if in_range 194 223 b0 then is_cont b1 && utf8_valid r1
      else match r1 with
      | [] => false
      | b2 :: r2 =>
        if in_range 224 239 b0 then
          (if (b0 =? 224)%N then in_range 160 191 b1
           else if (b0 =? 237)%N then in_range 128 159 b1
           else is_cont b1)
          && is_cont b2 && utf8_valid r2
        else match r2 with
        | [] => false
        | b3 :: r3 =>
          in_range 240 244 b0
          && (if (b0 =? 240)%N then in_range 144 191 b1
              else if (b0 =? 244)%N then in_range 128 143 b1
              else is_cont b1)
          && is_cont b2 && is_cont b3 && utf8_valid r3
        end
      end
    end
  end.

(** A Python [str] is represented by its UTF-8 encoding. *)
Definition decode_utf8 (bs : list byte) : exn + string :=
  if utf8_valid (Byte.to_N <$> bs)
  then inr (String.string_of_list_byte bs)
  else inl (Exn UnicodeDecodeError "'utf-8' codec can't decode bytes").

(** [len(content)] *)
Definition len {A} (l : list A) : Z := Z.of_nat (length l).

(** ** The state-and-exception monad

    A computation runs on a state and either returns a value or raises;
    the state reached when it raises is kept, as Python keeps the effects
    performed before the [raise]. *)
Definition M (S A : Type) : Type := S → (exn + A) * S.

#[global] Instance M_ret {S} : MRet (M S) := λ A a s, (inr a, s).

#[global] Instance M_bind {S} : MBind (M S) := λ A B f m s,
  match m s with
  | (inr a, s') => f a s'
  | (inl e, s') => (inl e, s')
  end.

Definition raise {S A} (e : exn) : M S A := λ s, (inl e, s).

(** [v] when it is a value, a [raise] when it is an exception. *)
Definition lift_result {S A} (r : exn + A) : M S A := λ s, (r, s).

(** [try: body  except Exception as e: handler e] *)
Definition try_except {S A} (body : M S A) (handler : exn → M S A) : M S A :=
  λ s, match body s with
       | (inl e, s') => handler e s'
       | (inr a, s') => (inr a, s')
       end.

(** [try: body  except cls: handler] *)
Definition try_except_class {S A} (cls : exn_class)
    (body : M S A) (handler : M S A) : M S A :=
  λ s, match body s with
       | (inl e, s') =>
           if decide (exn_cls e = cls) then handler s' else (inl e, s')
       | (inr a, s') => (inr a, s')
       end.

Definition gets {S A} (f : S → A) : M S A := λ s, (inr (f s), s).

Definition modify {S} (f : S → S) : M S unit := λ s, (inr tt, f s).

(** Raise [e] when a fault is scheduled, continue otherwise. *)
Definition fault {S} (o : option exn) : M S unit :=
  match o with
  | Some e => raise e
  | None => mret tt
  end.

(** ** Library objects *)

(** [ChatOpenAI(model_name=..., temperature=...)] *)
Record ChatOpenAI := { model_name : string; temperature : Q }.

(** [OpenAIEmbeddings()] *)
Inductive OpenAIEmbeddings := mkOpenAIEmbeddings.

(** [RecursiveCharacterTextSplitter(chunk_size=..., chunk_overlap=...)] *)
Record RecursiveCharacterTextSplitter := { chunk_size : Z; chunk_overlap : Z }.

(** The calls into the vector store, splitter and chain, in the order in
    which the program makes them. *)
Inductive call :=
| CallSplitText (splitter : RecursiveCharacterTextSplitter) (text : string)
| CallFromTexts (texts : list string)
| CallLoadLocal (path : string)
| CallAddTexts (texts : list string) (metadatas : list Dict)
| CallSaveLocal (path : string)
| CallRun (query : string).

(** The landing page.  [dq] is the double-quote character, [nl] a line
    break. *)
Definition dq : string := String (Ascii.ascii_of_nat 34) EmptyString.
Definition nl : string := String (Ascii.ascii_of_nat 10) EmptyString.

Definition HTML_TEMPLATE : string :=
  nl ++
  "<!DOCTYPE html>" ++ nl ++
  "<html lang=" ++ dq ++ "en" ++ dq ++ ">" ++ nl ++
  "<head>" ++ nl ++
  "    <meta charset=" ++ dq ++ "UTF-8" ++ dq ++ ">" ++ nl ++
  "    <meta name=" ++ dq ++ "viewport" ++ dq ++ " content=" ++ dq
    ++ "width=device-width, initial-scale=1.0" ++ dq ++ ">" ++ nl ++
  "    <title>Document Analyzer</title>" ++ nl ++
  "    <script src=" ++ dq
    ++ "https://unpkg.com/react@17/umd/react.production.min.js" ++ dq
    ++ "></script>" ++ nl ++
  "    <script src=" ++ dq
    ++ "https://unpkg.com/react-dom@17/umd/react-dom.production.min.js" ++ dq
    ++ "></script>" ++ nl ++
  "    <script src=" ++ dq ++ "https://cdn.tailwindcss.com" ++ dq
    ++ "></script>" ++ nl ++
  "    <script src=" ++ dq ++ "/static/js/app.js" ++ dq ++ " defer></script>" ++ nl ++
  "</head>" ++ nl ++
  "<body>" ++ nl ++
  "    <div id=" ++ dq ++ "root" ++ dq ++ "></div>" ++ nl ++
  "</body>" ++ nl ++
  "</html>" ++ nl.

(** ** The vector store, the environment and the process state *)

Section Program.

(** Embedding vectors are opaque to the program. *)
Context {Vec : Type}.

(** One stored entry: chunk text, embedding vector, metadata. *)
Record Entry := { page_content : string; embedding : Vec; metadata : Dict }.

(** The FAISS store, as the sequence of its entries in insertion order. *)
Definition Index : Type := list Entry.

(** [vector_store.as_retriever()]: a retriever holding the store it was
    made from, with no filter. *)
Record Retriever := { retriever_store : Index }.

(** [RetrievalQA.from_chain_type(llm=..., chain_type=..., retriever=...)] *)
Record RetrievalQA :=
  { qa_llm : ChatOpenAI; qa_chain_type : string; qa_retriever : Retriever }.

(** The collaborators that the repository does not implement: the file
    system and YAML parser, the clock, the splitter, the embedding
    provider, the store's disk format and the hosted model.  A fault is
    the exception that the corresponding call raises, if any, before it
    has any effect: [save_local_fault] is a save that fails before it
    writes (a save that breaks off half-way, leaving a partial
    directory, is outside this model). *)
Record Externals := {
  open_read : string → exn + string;
  yaml_safe_load : string → exn + yaml;
  now_isoformat : nat → string;
  llm_fault : option exn;
  embeddings_fault : option exn;
  load_local_fault : option exn;
  embed : string → Vec;
  embed_fault : list string → option exn;
  split_text : RecursiveCharacterTextSplitter → string → list string;
  save_local_fault : option exn;
  qa_run : RetrievalQA → string → exn + string
}.

(** The state outside the analyzer object: the environment variables;
    [disk], the vector-store directories on disk, by path; [log], the
    records written through the logger to the file [app.log] and to the
    console, oldest first; the library calls made so far; and the number
    of clock readings. *)
Record Sys := {
  environ : gmap string string;
  disk : gmap string Index;
  log : list (level * string);
  calls : list call;
  clock : nat
}.

(** The [DocumentAnalyzer] instance. *)
Record DocumentAnalyzer := {
  config : yaml;
  llm : ChatOpenAI;
  embeddings : OpenAIEmbeddings;
  vector_store : Index
}.

(** The running process: the module-level [analyzer] and its surroundings. *)
Record App := { analyzer : DocumentAnalyzer; sys : Sys }.

Definition set_environ (f : gmap string string → gmap string string) (s : Sys) : Sys :=
  {| environ := f (environ s); disk := disk s; log := log s;
     calls := calls s; clock := clock s |}.

Definition set_disk (f : gmap string Index → gmap string Index) (s : Sys) : Sys :=
  {| environ := environ s; disk := f (disk s); log := log s;
     calls := calls s; clock := clock s |}.

Definition set_log (f : list (level * string) → list (level * string)) (s : Sys) : Sys :=
  {| environ := environ s; disk := disk s; log := f (log s);
     calls := calls s; clock := clock s |}.

Definition set_calls (f : list call → list call) (s : Sys) : Sys :=
  {| environ := environ s; disk := disk s; log := log s;
     calls := f (calls s); clock := clock s |}.

Definition set_clock (f : nat → nat) (s : Sys) : Sys :=
  {| environ := environ s; disk := disk s; log := log s;
     calls := calls s; clock := f (clock s) |}.

Definition set_vector_store (f : Index → Index) (a : App) : App :=
  {| analyzer :=
       {| config := config (analyzer a); llm := llm (analyzer a);
          embeddings := embeddings (analyzer a);
          vector_store := f (vector_store (analyzer a)) |};
     sys := sys a |}.

Definition set_sys (f : Sys → Sys) (a : App) : App :=
  {| analyzer := analyzer a; sys := f (sys a) |}.

(** Run a computation on the surroundings inside the process. *)
Definition lift_sys {A} (m : M Sys A) : M App A :=
  λ a, let '(r, s') := m (sys a) in (r, set_sys (λ _, s') a).

Variable ext : Externals.

(** *** Primitive operations *)

Definition logger (l : level) (msg : string) : M Sys unit :=
  modify (set_log (λ lg, (lg ++ [(l, msg)])%list)).

Definition record_call (c : call) : M Sys unit :=
  modify (set_calls (λ cs, (cs ++ [c])%list)).

(** [datetime.now().isoformat()] *)
Definition datetime_now : M Sys string :=
  t ← gets clock;
  modify (set_clock S);;
  mret (now_isoformat ext t).

(** [v[key]] for a string [key] *)
Definition subscript (v : yaml) (key : string) : exn + yaml :=
  match v with
  | YMap items =>
      match
        List.find (λ kv, match kv.1 with YStr k => String.eqb k key | _ => false end) items
      with
      | Some kv => inr kv.2
      | None => inl (Exn KeyError ("'" ++ key ++ "'"))
      end
  | YSeq _ => inl (Exn TypeError "list indices must be integers or slices, not str")
  | YStr _ => inl (Exn TypeError "string indices must be integers")
  | YNull => inl (Exn TypeError "'NoneType' object is not subscriptable")
  | YBool _ => inl (Exn TypeError "'bool' object is not subscriptable")
  | YInt _ => inl (Exn TypeError "'int' object is not subscriptable")
  | YOther t => inl (Exn TypeError ("'" ++ t ++ "' object is not subscriptable"))
  end.

Fixpoint has_nul (s : string) : bool :=
  match s with
  | EmptyString => false
  | String c r => Ascii.eqb c Ascii.zero || has_nul r
  end.

(** [os.environ[key] = v] *)
Definition environ_setitem (key : string) (v : yaml) : M Sys unit :=
  match v with
  | YStr s =>
      if has_nul s then raise (Exn ValueError "embedded null byte")
      else modify (set_environ (λ env, <[key := s]> env))
  | _ => raise (Exn TypeError "str expected")
  end.

(** [os.path.exists(path)] for the paths at which an index can be persisted *)
Definition os_path_exists (path : string) : M Sys bool :=
  gets (λ s, bool_decide (is_Some (disk s !! path))).

(** Entries built from texts and their metadata records, one per text. *)
Fixpoint documents (texts : list string) (metadatas : list Dict) : Index :=
  match texts with
  | [] => []
  | t :: ts =>
      {| page_content := t; embedding := embed ext t;
         metadata := default [] (head metadatas) |}
      :: documents ts (tail metadatas)
  end.

(** [FAISS.from_texts(texts, embeddings)] *)
Definition FAISS_from_texts (texts : list string) (e : OpenAIEmbeddings) : M Sys Index :=
  record_call (CallFromTexts texts);;
  fault (embed_fault ext texts);;
  mret (documents texts []).

(** [FAISS.load_local(path, embeddings)] *)
Definition FAISS_load_local (path : string) (e : OpenAIEmbeddings) : M Sys Index :=
  record_call (CallLoadLocal path);;
  fault (load_local_fault ext);;
  d ← gets disk;
  match d !! path with
  | Some idx => mret idx
  | None => raise (Exn LibraryError ("could not open " ++ path))
  end.

(** [self.vector_store.add_texts(texts, metadatas=...)]: embeds the texts,
    then appends one entry per text to the store; when embedding raises,
    nothing is appended. *)
Definition add_texts (texts : list string) (metadatas : list Dict) : M App unit :=
  lift_sys (record_call (CallAddTexts texts metadatas));;
  fault (embed_fault ext texts);;
  modify (set_vector_store (λ idx, (idx ++ documents texts metadatas)%list)).

(** [self.vector_store.save_local(path)]: overwrites what is persisted at
    [path] with the store.  A save that raises is one that fails before
    it writes, so what was persisted stays. *)
Definition save_local (path : string) : M App unit :=
  lift_sys (record_call (CallSaveLocal path));;
  fault (save_local_fault ext);;
  idx ← gets (λ a, vector_store (analyzer a));
  lift_sys (modify (set_disk (λ d, <[path := idx]> d))).

(** [self.vector_store.as_retriever()] *)
Definition as_retriever : M App Retriever :=
  idx ← gets (λ a, vector_store (analyzer a));
  mret {| retriever_store := idx |}.

(** [qa_chain.run(question)] *)
Definition run (chain : RetrievalQA) (question : string) : M Sys string :=
  record_call (CallRun question);;
  lift_result (qa_run ext chain question).

(** *** class DocumentAnalyzer *)

Definition load_config (config_path : string) : M Sys yaml :=
  try_except
    (file ← lift_result (open_read ext config_path);
     config ← lift_result (yaml_safe_load ext file);
     key ← lift_result (subscript config "openai_api_key");
     environ_setitem "OPENAI_API_KEY" key;;
     mret config)
    (λ e, logger ERROR ("Error loading config: " ++ str_e e);; raise e).

Definition setup_llm : M Sys (ChatOpenAI * OpenAIEmbeddings) :=
  try_except
    (fault (llm_fault ext);;
     let llm := {| model_name := "gpt-3.5-turbo"; temperature := 3 # 10 |} in
     fault (embeddings_fault ext);;
     mret (llm, mkOpenAIEmbeddings))
    (λ e, logger ERROR ("Error setting up LLM: " ++ str_e e);; raise e).

Definition initialize_vector_store (e : OpenAIEmbeddings) : M Sys Index :=
  try_except
    (b ← os_path_exists "vectorstore";
     if b : bool then FAISS_load_local "vectorstore" e
     else FAISS_from_texts ["initialization"] e)
    (λ e, logger ERROR ("Error initializing vector store: " ++ str_e e);; raise e).

(** [DocumentAnalyzer.__init__] *)
Definition DocumentAnalyzer_init (config_path : string) : M Sys DocumentAnalyzer :=
  cfg ← load_config config_path;
  le ← setup_llm;
  vs ← initialize_vector_store le.2;
  mret {| config := cfg; llm := le.1; embeddings := le.2; vector_store := vs |}.

Definition summary_question : string :=
  "Provide a brief summary of the main topics in this document.".

Definition process_document (content : string) (metadata : Dict) : M App Dict :=
  try_except
    (let text_splitter := {| chunk_size := 1000; chunk_overlap := 200 |} in
     lift_sys (record_call (CallSplitText text_splitter content));;
     let chunks := split_text ext text_splitter content in
     add_texts chunks ((λ _, metadata) <$> chunks);;
     save_local "vectorstore";;
     l ← gets (λ a, llm (analyzer a));
     retriever ← as_retriever;
     let qa_chain :=
       {| qa_llm := l; qa_chain_type := "stuff"; qa_retriever := retriever |} in
     analysis ← lift_sys (run qa_chain summary_question);
     ts ← lift_sys datetime_now;
     mret [("status", JStr "success");
           ("timestamp", JStr ts);
           ("metadata", JObj metadata);
           ("analysis", JStr analysis)])
    (λ e, lift_sys (logger ERROR ("Error processing document: " ++ str_e e));;
          raise e).

(** *** Module level: [analyzer = DocumentAnalyzer()] and the endpoints *)

Definition startup : M Sys DocumentAnalyzer :=
  DocumentAnalyzer_init "config/config.yaml".

Definition analyze_document (file : UploadFile) : M App Response :=
  lift_sys (logger DEBUG ("Received file: " ++ filename file));;
  try_except
    (content ← lift_result (read file);
     if bool_decide (len content > 1024 * 1024 * 10) then
       mret (JSONResponse 400
               (JObj [("error", JStr "File too large. Maximum size is 10MB")]))
     else
       (* [inl]: the response returned from the [except] clause *)
       decoded ← try_except_class UnicodeDecodeError
                   (text ← lift_result (decode_utf8 content); mret (inr text))
                   (mret (inl (JSONResponse 400
                      (JObj [("error", JStr "File must be a valid text document")]))));
       match decoded with
       | inl response => mret response
       | inr content =>
           ts ← lift_sys datetime_now;
           let metadata :=
             [("filename", JStr (filename file));
              ("timestamp", JStr ts);
              ("version", JStr "1.0")] in
           try_except
             (result ← process_document content metadata;
              mret (JSONResponse 200 (JObj result)))
             (λ e,
              lift_sys (logger ERROR ("Error processing document: " ++ str_e e));;
              mret (JSONResponse 500
                      (JObj [("error", JStr ("Error processing document: " ++ str_e e))])))
       end)
    (λ e,
     lift_sys (logger ERROR ("Upload error: " ++ str_e e));;
     mret (JSONResponse 500 (JObj [("error", JStr ("Upload error: " ++ str_e e))]))).

Definition query_documents (question : string) : M App Response :=
  try_except
    (l ← gets (λ a, llm (analyzer a));
     retriever ← as_retriever;
     let qa_chain :=
       {| qa_llm := l; qa_chain_type := "stuff"; qa_retriever := retriever |} in
     answer ← lift_sys (run qa_chain question);
     mret (JSONResponse 200
             (JObj [("question", JStr question); ("answer", JStr answer)])))
    (λ e,
     lift_sys (logger ERROR ("Error querying documents: " ++ str_e e));;
     mret (JSONResponse 500
             (JObj [("error", JStr ("Error querying documents: " ++ str_e e))]))).

(** [GET /] *)
Definition read_root : M App Response :=
  mret {| status_code := 200; content := HTMLBody HTML_TEMPLATE |}.

(** *** The HTTP surface *)

Inductive request :=
| GET_root
| POST_analyze (file : UploadFile)
| GET_query (question : string).

Definition handle (r : request) : M App Response :=
  match r with
  | GET_root => read_root
  | POST_analyze file => analyze_document file
  | GET_query question => query_documents question
  end.

End Program.

Arguments Entry : clear implicits.
Arguments Index : clear implicits.
Arguments Retriever : clear implicits.
Arguments RetrievalQA : clear implicits.
Arguments Externals : clear implicits.
Arguments Sys : clear implicits.
Arguments DocumentAnalyzer : clear implicits.
Arguments App : clear implicits.

(** The process serving a sequence of requests, each under the behaviour
    that the collaborators show while it is handled. *)
Fixpoint serve {Vec} (rs : list (Externals Vec * request)) (a : App Vec)
  : list (exn + Response) * App Vec :=
  match rs with
  | [] => ([], a)
  | (ext, r) :: rs' =>
      let '(out, a') := handle ext r a in
      let '(outs, a'') := serve rs' a' in
      (out :: outs, a'')
  end.

(** ** Vocabulary of the statements *)

Section Vocabulary.

Context {Vec : Type} (ext : Externals Vec).

(** The splitter that ingestion configures and the chunks it yields. *)
Definition ingestion_splitter : RecursiveCharacterTextSplitter :=
  {| chunk_size := 1000; chunk_overlap := 200 |}.

Definition chunks_of (content : string) : list string :=
  split_text ext ingestion_splitter content.

(** The entries that ingestion of [content] appends. *)
Definition inserted (content : string) (metadata : Dict) : Index Vec :=
  documents ext (chunks_of content) ((λ _, metadata) <$> chunks_of content).

(** The chain that ingestion and query build over a store. *)
Definition chain_over (a : App Vec) (idx : Index Vec) : RetrievalQA Vec :=
  {| qa_llm := llm (analyzer a); qa_chain_type := "stuff";
     qa_retriever := {| retriever_store := idx |} |}.

(** The process after it appended [added] to the store, persisted the
    store when [persisted], made the calls [cs], logged [lg] and read the
    clock [ticks] times. *)
Definition evolve (a : App Vec) (added : Index Vec) (persisted : bool)
    (cs : list call) (lg : list (level * string)) (ticks : nat) : App Vec :=
  let idx := (vector_store (analyzer a) ++ added)%list in
  {| analyzer :=
       {| config := config (analyzer a); llm := llm (analyzer a);
          embeddings := embeddings (analyzer a); vector_store := idx |};
     sys :=
       {| environ := environ (sys a);
          disk := if persisted then <["vectorstore" := idx]> (disk (sys a))
                  else disk (sys a);
          log := (log (sys a) ++ lg)%list;
          calls := (calls (sys a) ++ cs)%list;
          clock := (ticks + clock (sys a))%nat |} |}.

Definition call_split (content : string) : call :=
  CallSplitText ingestion_splitter content.

Definition call_add (content : string) (md : Dict) : call :=
  CallAddTexts (chunks_of content) ((λ _, md) <$> chunks_of content).

Definition processing_error (e : exn) : level * string :=
  (ERROR, "Error processing document: " ++ str_e e).

(** The record that a successful ingestion returns. *)
Definition success_record (ts : string) (md : Dict) (analysis : string) : Dict :=
  [("status", JStr "success"); ("timestamp", JStr ts);
   ("metadata", JObj md); ("analysis", JStr analysis)].

Definition received (file : UploadFile) : level * string :=
  (DEBUG, "Received file: " ++ filename file).

(** The metadata record that [/analyze] submits for an upload. *)
Definition upload_metadata (file : UploadFile) (ts : string) : Dict :=
  [("filename", JStr (filename file)); ("timestamp", JStr ts);
   ("version", JStr "1.0")].

(** A response whose body is [{"error": msg}]. *)
Definition error_response (status : Z) (msg : string) : Response :=
  JSONResponse status (JObj [("error", JStr msg)]).

Definition size_error : Response :=
  error_response 400 "File too large. Maximum size is 10MB".

Definition decode_error : Response :=
  error_response 400 "File must be a valid text document".

(** The outcome of a method that logs [prefix] with the exception text
    and re-raises. *)
Definition logged_raise {A} (prefix : string) (e : exn) (s : Sys Vec)
  : (exn + A) * Sys Vec :=
  (inl e, set_log (λ lg, (lg ++ [(ERROR, (prefix ++ str_e e)%string)])%list) s).

(** Whether the parsed configuration is a mapping that has [key]. *)
Definition has_key (cfg : yaml) (key : string) : bool :=
  match cfg with
  | YMap items =>
      existsb (λ kv, match kv.1 with YStr k => String.eqb k key | _ => false end) items
  | _ => false
  end.

(** The entry with which a new index is seeded. *)
Definition placeholder : Entry Vec :=
  {| page_content := "initialization"; embedding := embed ext "initialization";
     metadata := [] |}.

End Vocabulary.

(** The machines that the program can find at startup: one on which
    nothing is persisted at ["vectorstore"], or one that an earlier run
    of the program left behind, whether that run failed to start or
    started and served requests. *)
Inductive reachable {Vec} : Sys Vec → Prop :=
| reachable_fresh s :
    disk s !! "vectorstore" = None → reachable s
| reachable_failed_start ext path s e s' :
    reachable s →
    DocumentAnalyzer_init ext path s = (inl e, s') →
    reachable s'
| reachable_run ext path rs s an s' :
    reachable s →
    DocumentAnalyzer_init ext path s = (inr an, s') →
    reachable (sys (serve rs {| analyzer := an; sys := s' |}).2).

(** ** A concrete deployment, used to exercise the statements *)

Module Demo.

(** A splitter for short texts: a non-empty text below the chunk size is
    its own single chunk. *)
Definition split (sp : RecursiveCharacterTextSplitter) (t : string) : list string :=
  match t with
  | "" => []
  | _ => [t]
  end.

(** Collaborators that answer as scheduled: [emb] and [save] are the
    faults of embedding and of persisting, [answer] is what the chain
    returns or raises. *)
Definition ext (emb save : option exn) (answer : exn + string) : Externals Z :=
  {| open_read := λ path,
       if String.eqb path "config/config.yaml" then inr "openai_api_key: sk-demo"
       else inl (Exn FileNotFoundError "No such file or directory");
     yaml_safe_load := λ _, inr (YMap [(YStr "openai_api_key", YStr "sk-demo")]);
     now_isoformat := λ n,
       match n with
       | O => "2024-05-01T10:00:00"
       | _ => "2024-05-01T10:00:01"
       end;
     llm_fault := None;
     embeddings_fault := None;
     load_local_fault := None;
     embed := λ t, Z.of_nat (String.length t);
     embed_fault := λ _, emb;
     split_text := split;
     save_local_fault := save;
     qa_run := λ _ _, answer |}.

Definition healthy : Externals Z := ext None None (inr "A note on coffee.").

Definition placeholder : Entry Z :=
  {| page_content := "initialization"; embedding := 14; metadata := [] |}.

Definition app : App Z :=
  {| analyzer :=
       {| config := YMap [(YStr "openai_api_key", YStr "sk-demo")];
          llm := {| model_name := "gpt-3.5-turbo"; temperature := 3 # 10 |};
          embeddings := mkOpenAIEmbeddings;
          vector_store := [placeholder] |};
     sys :=
       {| environ := {["OPENAI_API_KEY" := "sk-demo"]};
          disk := ∅; log := []; calls := []; clock := 0 |} |}.

Definition note : string := "Coffee brewing needs hot water.".

Definition note_metadata : Dict :=
  [("filename", JStr "note.txt"); ("timestamp", JStr "2024-05-01T09:59:59");
   ("version", JStr "1.0")].

Definition upload (name : string) (payload : list byte) : UploadFile :=
  {| filename := name; read := inr payload |}.

(** A payload of 10 MB and one byte. *)
Definition big_payload : list byte := replicate (Z.to_nat 10485761) x00.

Definition boom : exn := Exn LibraryError "connection reset".

(** A machine on which nothing is persisted yet, and one on which an
    index without entries is persisted. *)
Definition fresh_sys : Sys Z :=
  {| environ := ∅; disk := ∅; log := []; calls := []; clock := 0 |}.

Definition empty_persisted_sys : Sys Z :=
  {| environ := ∅; disk := {["vectorstore" := []]}; log := []; calls := [];
     clock := 0 |}.

(** An upload of the note, and an upload whose reading fails. *)
Definition note_upload : UploadFile :=
  upload "note.txt" (String.list_byte_of_string note).

Definition broken_upload : UploadFile :=
  {| filename := "gone.txt"; read := inl boom |}.

(** The entry that ingestion of the note appends. *)
Definition note_entry (md : Dict) : Entry Z :=
  {| page_content := note; embedding := 31; metadata := md |}.

(** A machine on which the index [idx] is persisted. *)
Definition persisted_sys (idx : Index Z) : Sys Z :=
  {| environ := ∅; disk := {["vectorstore" := idx]}; log := []; calls := [];
     clock := 0 |}.

(** A process whose index is the placeholder, persisted as it is. *)
Definition synced_app : App Z :=
  {| analyzer := analyzer app; sys := persisted_sys [placeholder] |}.

(** Collaborators as [x], except for the outcome of constructing the
    model, of loading a persisted index, or of parsing the settings. *)
Definition with_llm_fault (f : option exn) (x : Externals Z) : Externals Z :=
  {| open_read := open_read x; yaml_safe_load := yaml_safe_load x;
     now_isoformat := now_isoformat x; llm_fault := f;
     embeddings_fault := embeddings_fault x;
     load_local_fault := load_local_fault x; embed := embed x;
     embed_fault := embed_fault x; split_text := split_text x;
     save_local_fault := save_local_fault x; qa_run := qa_run x |}.

Definition with_load_local_fault (f : option exn) (x : Externals Z) : Externals Z :=
  {| open_read := open_read x; yaml_safe_load := yaml_safe_load x;
     now_isoformat := now_isoformat x; llm_fault := llm_fault x;
     embeddings_fault := embeddings_fault x;
     load_local_fault := f; embed := embed x;
     embed_fault := embed_fault x; split_text := split_text x;
     save_local_fault := save_local_fault x; qa_run := qa_run x |}.

Definition with_yaml (y : exn + yaml) (x : Externals Z) : Externals Z :=
  {| open_read := open_read x; yaml_safe_load := λ _, y;
     now_isoformat := now_isoformat x; llm_fault := llm_fault x;
     embeddings_fault := embeddings_fault x;
     load_local_fault := load_local_fault x; embed := embed x;
     embed_fault := embed_fault x; split_text := split_text x;
     save_local_fault := save_local_fault x; qa_run := qa_run x |}.

End Demo.

(** ** Reasoning about computations *)

(** Unfolds the monad and the primitive operations, so that a computation
    applied to a state reduces. *)
Ltac unfold_ops :=
  unfold add_texts, save_local, as_retriever, run, FAISS_from_texts,
    FAISS_load_local, os_path_exists, environ_setitem, datetime_now,
    record_call, logger, fault, lift_sys, lift_result, try_except,
    try_except_class, raise, gets, modify, mbind, M_bind, mret, M_ret in *.

(** Closes an equation between two outcomes whose states differ only in
    the bracketing of what was appended to the log and to the calls. *)
Ltac same_outcome :=
  simpl; unfold set_sys, set_vector_store, set_calls, set_log, set_disk,
    set_clock, set_environ; simpl;
  rewrite <- ?app_assoc, ?app_nil_r; simpl; reflexivity.

Lemma big_payload_len : len Demo.big_payload > 1024 * 1024 * 10.
Proof. unfold len, Demo.big_payload. rewrite length_replicate. lia. Defined.

Section Outcomes.

Context {Vec : Type} (ext : Externals Vec).

(** Symbolic execution of [process_document]: the outcome in each of the
    four ways in which the collaborators can behave. *)
Lemma process_document_outcome content md (a : App Vec) :
  process_document ext content md a =
  match embed_fault ext (chunks_of ext content) with
  | Some e =>
      (inl e, evolve a [] false [call_split content; call_add ext content md]
                [processing_error e] 0)
  | None =>
    match save_local_fault ext with
    | Some e =>
        (inl e, evolve a (inserted ext content md) false
                  [call_split content; call_add ext content md;
                   CallSaveLocal "vectorstore"]
                  [processing_error e] 0)
    | None =>
      let cs := [call_split content; call_add ext content md;
                 CallSaveLocal "vectorstore"; CallRun summary_question] in
      match qa_run ext
              (chain_over a (vector_store (analyzer a) ++ inserted ext content md)%list)
              summary_question with
      | inl e =>
          (inl e, evolve a (inserted ext content md) true cs [processing_error e] 0)
      | inr analysis =>
          (inr (success_record (now_isoformat ext (clock (sys a))) md analysis),
           evolve a (inserted ext content md) true cs [] 1)
      end
    end
  end.
Proof.
  destruct a as [[cfg l em vs] [env dk lg cs ck]].
  unfold process_document, evolve, call_split, call_add, inserted, chain_over,
    processing_error, success_record.
  unfold_ops. fold ingestion_splitter. fold (chunks_of ext content).
  destruct (embed_fault ext (chunks_of ext content)) as [e|]; [same_outcome|].
  destruct (save_local_fault ext) as [e|]; [same_outcome|].
  simpl.
  destruct (qa_run ext _ summary_question) as [e|analysis]; same_outcome.
Qed.

Lemma decode_utf8_raises bs e :
  decode_utf8 bs = inl e → exn_cls e = UnicodeDecodeError.
Proof.
  unfold decode_utf8. destruct (utf8_valid _); [discriminate|].
  intros [= <-]. reflexivity.
Qed.

(** Symbolic execution of [analyze_document]. *)
Lemma analyze_document_outcome file (a : App Vec) :
  analyze_document ext file a =
  match read file with
  | inl e =>
      (inr (error_response 500 ("Upload error: " ++ str_e e)),
       evolve a [] false [] [received file; (ERROR, "Upload error: " ++ str_e e)] 0)
  | inr payload =>
    if bool_decide (len payload > 1024 * 1024 * 10) then
      (inr size_error, evolve a [] false [] [received file] 0)
    else
      match decode_utf8 payload with
      | inl _ => (inr decode_error, evolve a [] false [] [received file] 0)
      | inr content =>
        match
          process_document ext content
            (upload_metadata file (now_isoformat ext (clock (sys a))))
            (evolve a [] false [] [received file] 1)
        with
        | (inr result, a') => (inr (JSONResponse 200 (JObj result)), a')
        | (inl e, a') =>
            (inr (error_response 500 ("Error processing document: " ++ str_e e)),
             evolve a' [] false [] [processing_error e] 0)
        end
      end
  end.
Proof.
  destruct a as [[cfg l em vs] [env dk lg cs ck]].
  unfold analyze_document, size_error, decode_error, error_response,
    upload_metadata, received, processing_error.
  unfold_ops. unfold evolve. simpl.
  destruct (read file) as [e|payload]; [same_outcome|].
  case_bool_decide; [same_outcome|].
  destruct (decode_utf8 payload) as [e|content] eqn:Hdec.
  - rewrite (decode_utf8_raises _ _ Hdec). simpl. same_outcome.
  - simpl. unfold set_sys, set_log, set_clock. simpl. rewrite ?app_nil_r.
    match goal with
    | |- context [process_document ext content ?md ?st] =>
        destruct (process_document ext content md st)
          as [[e|result] [[cfg' l' em' vs'] [env' dk' lg' cs' ck']]]
    end; same_outcome.
Qed.

(** Symbolic execution of [query_documents]. *)
Lemma query_documents_outcome question (a : App Vec) :
  query_documents ext question a =
  match qa_run ext (chain_over a (vector_store (analyzer a))) question with
  | inr answer =>
      (inr (JSONResponse 200
              (JObj [("question", JStr question); ("answer", JStr answer)])),
       evolve a [] false [CallRun question] [] 0)
  | inl e =>
      (inr (error_response 500 ("Error querying documents: " ++ str_e e)),
       evolve a [] false [CallRun question]
         [(ERROR, "Error querying documents: " ++ str_e e)] 0)
  end.
Proof.
  destruct a as [[cfg l em vs] [env dk lg cs ck]].
  unfold query_documents, error_response, chain_over, evolve.
  unfold_ops. simpl.
  destruct (qa_run ext _ question) as [e|answer]; same_outcome.
Qed.

End Outcomes.

(** ** Ingestion *)

Section IngestionProperties.

Context {Vec : Type} (ext : Externals Vec).

Lemma documents_length texts mds : length (documents ext texts mds) = length texts.
Proof. revert mds. induction texts as [|t ts IH]; intros mds; simpl; [|rewrite IH]; reflexivity. Qed.

Lemma documents_page_content texts mds :
  page_content <$> documents ext texts mds = texts.
Proof.
  revert mds. induction texts as [|t ts IH]; intros mds; [reflexivity|].
  simpl. f_equal. apply IH.
Qed.

Lemma documents_same_metadata texts (md : Dict) :
  Forall (λ en, metadata en = md) (documents ext texts ((λ _, md) <$> texts)).
Proof. induction texts as [|t ts IH]; simpl; constructor; auto. Qed.

Lemma fmap_const_replicate {A B} (l : list A) (b : B) :
  (λ _, b) <$> l = replicate (length l) b.
Proof. induction l as [|x l IH]; [reflexivity|]. simpl. f_equal. exact IH. Qed.

(** The state in which [process_document] leaves the store and the calls. *)
Lemma process_document_calls content md (a : App Vec) :
  ∃ rest,
    calls (sys (process_document ext content md a).2) =
    (calls (sys a) ++ call_split content :: call_add ext content md :: rest)%list.
Proof.
  rewrite process_document_outcome.
  destruct (embed_fault ext _); [eexists; reflexivity|].
  destruct (save_local_fault ext); [eexists; reflexivity|].
  simpl. destruct (qa_run ext _ _); eexists; reflexivity.
Qed.

Lemma process_document_store content md (a : App Vec) :
  embed_fault ext (chunks_of ext content) = None →
  vector_store (analyzer (process_document ext content md a).2) =
  (vector_store (analyzer a) ++ inserted ext content md)%list.
Proof.
  intros Hemb. rewrite process_document_outcome, Hemb.
  destruct (save_local_fault ext); [reflexivity|].
  simpl. destruct (qa_run ext _ _); reflexivity.
Qed.

(** C1. Ingestion passes to the index exactly the chunks that the splitter
    yields at chunk size 1000 and overlap 200, together with a metadata
    list holding one copy of the submitted record per chunk; when the
    index accepts them, the entries appended to the store are as many as
    the chunks, hold the chunks in order, and each carries the submitted
    metadata record. *)
Theorem C1_chunks_and_metadata content (md : Dict) (a : App Vec) :
  let chunks := split_text ext {| chunk_size := 1000; chunk_overlap := 200 |} content in
  let a' := (process_document ext content md a).2 in
  (∃ rest, calls (sys a') =
           (calls (sys a)
            ++ CallSplitText {| chunk_size := 1000; chunk_overlap := 200 |} content
            :: CallAddTexts chunks (replicate (length chunks) md) :: rest)%list)
  ∧ (embed_fault ext chunks = None →
     ∃ new, vector_store (analyzer a') = (vector_store (analyzer a) ++ new)%list
       ∧ length new = length chunks
       ∧ page_content <$> new = chunks
       ∧ Forall (λ en, metadata en = md) new).
Proof.
  intros chunks a'. split.
  - destruct (process_document_calls content md a) as [rest Hrest].
    exists rest. subst a'. rewrite Hrest. unfold call_split, call_add.
    rewrite fmap_const_replicate. reflexivity.
  - intros Hemb. exists (inserted ext content md). subst a'.
    rewrite (process_document_store _ _ _ Hemb). unfold inserted.
    split; [reflexivity|]. split; [apply documents_length|].
    split; [apply documents_page_content|apply documents_same_metadata].
Qed.

End IngestionProperties.

Lemma C1_witness :
  ∃ new,
    vector_store (analyzer (process_document Demo.healthy Demo.note Demo.note_metadata Demo.app).2)
    = (vector_store (analyzer Demo.app) ++ new)%list
    ∧ length new = 1%nat
    ∧ page_content <$> new = [Demo.note]
    ∧ Forall (λ en, metadata en = Demo.note_metadata) new.
Proof.
  destruct (C1_chunks_and_metadata Demo.healthy Demo.note Demo.note_metadata Demo.app)
    as [_ H].
  apply H. reflexivity.
Defined.

(** ** Rejected uploads *)

(** The decoder on well-formed and ill-formed inputs: ASCII, a two-byte
    and a three-byte character; a stray byte, an overlong form, a
    surrogate, a truncated character and a code point above U+10FFFF. *)
Example utf8_valid_ascii : utf8_valid [104; 105]%N = true.
Proof. reflexivity. Qed.

Example utf8_valid_two_bytes : utf8_valid [195; 169]%N = true.
Proof. reflexivity. Qed.

Example utf8_valid_three_bytes : utf8_valid [226; 130; 172]%N = true.
Proof. reflexivity. Qed.

Example utf8_valid_four_bytes : utf8_valid [240; 159; 146; 169]%N = true.
Proof. reflexivity. Qed.

Example utf8_invalid_stray : utf8_valid [255]%N = false.
Proof. reflexivity. Qed.

Example utf8_invalid_overlong : utf8_valid [192; 128]%N = false.
Proof. reflexivity. Qed.

Example utf8_invalid_surrogate : utf8_valid [237; 160; 128]%N = false.
Proof. reflexivity. Qed.

Example utf8_invalid_truncated : utf8_valid [226; 130]%N = false.
Proof. reflexivity. Qed.

Example utf8_invalid_too_large : utf8_valid [244; 144; 128; 128]%N = false.
Proof. reflexivity. Qed.

Section RejectedUploads.

Context {Vec : Type} (ext : Externals Vec).

(** A rejected upload leaves everything but the log as it was. *)
Lemma evolve_log_only (a : App Vec) lg :
  analyzer (evolve a [] false [] lg 0) = analyzer a
  ∧ disk (sys (evolve a [] false [] lg 0)) = disk (sys a)
  ∧ calls (sys (evolve a [] false [] lg 0)) = calls (sys a).
Proof.
  destruct a as [[cfg l em vs] [env dk lg0 cs ck]]. unfold evolve. simpl.
  rewrite !app_nil_r. auto.
Qed.

(** C2. An upload whose payload has more than 10485760 bytes is answered
    with status 400 and the body [{"error": "File too large. Maximum size
    is 10MB"}]; the analyzer (and so the in-memory index) and what is
    persisted on disk are unchanged, and no call reaches the index. *)
Theorem C2_oversized_upload file payload (a : App Vec) :
  read file = inr payload →
  len payload > 10485760 →
  ∃ a',
    analyze_document ext file a =
      (inr {| status_code := 400;
              content := JSONBody
                (JObj [("error", JStr "File too large. Maximum size is 10MB")]) |},
       a')
    ∧ analyzer a' = analyzer a
    ∧ disk (sys a') = disk (sys a)
    ∧ calls (sys a') = calls (sys a).
Proof.
  intros Hread Hlen. rewrite analyze_document_outcome, Hread.
  rewrite bool_decide_eq_true_2 by lia.
  eexists. split; [reflexivity|]. apply evolve_log_only.
Qed.

(** C3. An upload within the size limit whose payload is not well-formed
    UTF-8 is answered with status 400 and the body [{"error": "File must
    be a valid text document"}]; the analyzer (and so the in-memory index)
    and what is persisted on disk are unchanged, and no call reaches the
    index. *)
Theorem C3_undecodable_upload file payload (a : App Vec) :
  read file = inr payload →
  len payload <= 10485760 →
  utf8_valid (Byte.to_N <$> payload) = false →
  ∃ a',
    analyze_document ext file a =
      (inr {| status_code := 400;
              content := JSONBody
                (JObj [("error", JStr "File must be a valid text document")]) |},
       a')
    ∧ analyzer a' = analyzer a
    ∧ disk (sys a') = disk (sys a)
    ∧ calls (sys a') = calls (sys a).
Proof.
  intros Hread Hlen Hbad. rewrite analyze_document_outcome, Hread.
  rewrite bool_decide_eq_false_2 by lia.
  unfold decode_utf8. rewrite Hbad.
  eexists. split; [reflexivity|]. apply evolve_log_only.
Qed.

End RejectedUploads.

Lemma C2_witness :
  ∃ a',
    analyze_document Demo.healthy (Demo.upload "big.bin" Demo.big_payload) Demo.app =
      (inr {| status_code := 400;
              content := JSONBody
                (JObj [("error", JStr "File too large. Maximum size is 10MB")]) |},
       a')
    ∧ analyzer a' = analyzer Demo.app
    ∧ disk (sys a') = disk (sys Demo.app)
    ∧ calls (sys a') = calls (sys Demo.app).
Proof.
  apply (C2_oversized_upload Demo.healthy (Demo.upload "big.bin" Demo.big_payload)
           Demo.big_payload Demo.app).
  - reflexivity.
  - pose proof big_payload_len. lia.
Defined.

Lemma C3_witness :
  ∃ a',
    analyze_document Demo.healthy (Demo.upload "blob.bin" [xff; xfe]) Demo.app =
      (inr {| status_code := 400;
              content := JSONBody
                (JObj [("error", JStr "File must be a valid text document")]) |},
       a')
    ∧ analyzer a' = analyzer Demo.app
    ∧ disk (sys a') = disk (sys Demo.app)
    ∧ calls (sys a') = calls (sys Demo.app).
Proof.
  apply (C3_undecodable_upload Demo.healthy (Demo.upload "blob.bin" [xff; xfe])
           [xff; xfe] Demo.app).
  - reflexivity.
  - vm_compute. discriminate.
  - reflexivity.
Defined.

(** ** Startup *)

Section Startup.

Context {Vec : Type} (ext : Externals Vec).

Lemma subscript_absent cfg key :
  has_key cfg key = false → ∃ e, subscript cfg key = inl e.
Proof.
  destruct cfg; simpl; eauto. intros Hno.
  destruct (List.find _ items) as [kv|] eqn:Hfind; [|eauto].
  apply find_some in Hfind as [Hin Hk].
  assert (existsb (λ kv, match kv.1 with YStr k => String.eqb k key | _ => false end)
            items = true) as Hex by (apply existsb_exists; eauto).
  congruence.
Qed.

(** Symbolic execution of [load_config]. *)
Lemma load_config_outcome path (s : Sys Vec) :
  load_config ext path s =
  match open_read ext path with
  | inl e => logged_raise "Error loading config: " e s
  | inr file =>
    match yaml_safe_load ext file with
    | inl e => logged_raise "Error loading config: " e s
    | inr cfg =>
      match subscript cfg "openai_api_key" with
      | inl e => logged_raise "Error loading config: " e s
      | inr (YStr key) =>
          if has_nul key
          then logged_raise "Error loading config: "
                 (Exn ValueError "embedded null byte") s
          else (inr cfg, set_environ (λ env, <["OPENAI_API_KEY" := key]> env) s)
      | inr _ =>
          logged_raise "Error loading config: " (Exn TypeError "str expected") s
      end
    end
  end.
Proof.
  unfold load_config, logged_raise. unfold_ops.
  destruct (open_read ext path) as [e|file]; [reflexivity|].
  destruct (yaml_safe_load ext file) as [e|cfg]; [reflexivity|].
  destruct (subscript cfg "openai_api_key") as [e|v]; [reflexivity|].
  destruct v; try reflexivity.
  destruct (has_nul s0); reflexivity.
Qed.

(** Symbolic execution of [setup_llm]. *)
Lemma setup_llm_outcome (s : Sys Vec) :
  setup_llm ext s =
  match llm_fault ext with
  | Some e => logged_raise "Error setting up LLM: " e s
  | None =>
    match embeddings_fault ext with
    | Some e => logged_raise "Error setting up LLM: " e s
    | None =>
        (inr ({| model_name := "gpt-3.5-turbo"; temperature := 3 # 10 |},
              mkOpenAIEmbeddings), s)
    end
  end.
Proof.
  unfold setup_llm, logged_raise. unfold_ops.
  destruct (llm_fault ext); [reflexivity|].
  destruct (embeddings_fault ext); reflexivity.
Qed.

(** Symbolic execution of [initialize_vector_store]. *)
Lemma initialize_vector_store_outcome e (s : Sys Vec) :
  initialize_vector_store ext e s =
  match disk s !! "vectorstore" with
  | Some idx =>
      let s1 := set_calls (λ cs, (cs ++ [CallLoadLocal "vectorstore"])%list) s in
      match load_local_fault ext with
      | Some e => logged_raise "Error initializing vector store: " e s1
      | None => (inr idx, s1)
      end
  | None =>
      let s1 := set_calls (λ cs, (cs ++ [CallFromTexts ["initialization"]])%list) s in
      match embed_fault ext ["initialization"] with
      | Some e => logged_raise "Error initializing vector store: " e s1
      | None => (inr [placeholder ext], s1)
      end
  end.
Proof.
  unfold initialize_vector_store, logged_raise, placeholder. unfold_ops. simpl.
  destruct (disk s !! "vectorstore") as [idx|] eqn:Hd.
  - rewrite bool_decide_eq_true_2 by eauto. simpl.
    destruct (load_local_fault ext); [reflexivity|]. simpl. rewrite Hd. reflexivity.
  - rewrite bool_decide_eq_false_2 by (intros [? ?]; congruence). simpl.
    destruct (embed_fault ext _); reflexivity.
Qed.

(** Construction succeeds only through the three methods, in order. *)
Lemma DocumentAnalyzer_init_inv path (s : Sys Vec) an s' :
  DocumentAnalyzer_init ext path s = (inr an, s') →
  ∃ s1 s2,
    load_config ext path s = (inr (config an), s1)
    ∧ setup_llm ext s1 = (inr (llm an, embeddings an), s2)
    ∧ initialize_vector_store ext (embeddings an) s2 = (inr (vector_store an), s').
Proof.
  unfold DocumentAnalyzer_init. unfold mbind, M_bind, mret, M_ret.
  destruct (load_config ext path s) as [[e|cfg] s1]; [discriminate|].
  destruct (setup_llm ext s1) as [[e|[l em]] s2] eqn:Hllm; [discriminate|]. simpl.
  destruct (initialize_vector_store ext em s2) as [[e|vs] s3] eqn:Hvs; [discriminate|].
  intros [= <- <-]. simpl. eauto.
Qed.

Lemma DocumentAnalyzer_init_raises path (s : Sys Vec) e s1 :
  load_config ext path s = (inl e, s1) →
  DocumentAnalyzer_init ext path s = (inl e, s1).
Proof.
  intros H. unfold DocumentAnalyzer_init. unfold mbind, M_bind. rewrite H. reflexivity.
Qed.

Lemma setup_llm_state (s : Sys Vec) r s' :
  setup_llm ext s = (inr r, s') → s' = s.
Proof.
  rewrite setup_llm_outcome. unfold logged_raise.
  destruct (llm_fault ext); [discriminate|].
  destruct (embeddings_fault ext); [discriminate|]. congruence.
Qed.

Lemma initialize_vector_store_state e (s : Sys Vec) idx s' :
  initialize_vector_store ext e s = (inr idx, s') →
  environ s' = environ s ∧ disk s' = disk s.
Proof.
  rewrite initialize_vector_store_outcome. unfold logged_raise.
  destruct (disk s !! "vectorstore").
  - simpl. destruct (load_local_fault ext); [discriminate|]. intros [= _ <-]. auto.
  - simpl. destruct (embed_fault ext _); [discriminate|]. intros [= _ <-]. auto.
Qed.

Lemma load_config_success path (s : Sys Vec) cfg s' :
  load_config ext path s = (inr cfg, s') →
  ∃ key, subscript cfg "openai_api_key" = inr (YStr key)
    ∧ s' = set_environ (λ env, <["OPENAI_API_KEY" := key]> env) s.
Proof.
  rewrite load_config_outcome. unfold logged_raise.
  destruct (open_read ext path) as [e|file]; [discriminate|].
  destruct (yaml_safe_load ext file) as [e|cfg']; [discriminate|].
  destruct (subscript cfg' "openai_api_key") as [e|v] eqn:Hsub; [discriminate|].
  destruct v; try discriminate.
  destruct (has_nul s0); [discriminate|].
  intros [= <- <-]. eauto.
Qed.

(** The index with which the analyzer starts: a persisted index is loaded
    as it is; when none is persisted, the new index holds exactly one
    entry, the placeholder; and the index of a constructed analyzer is
    non-empty when what is persisted is. *)
Lemma initial_index_cases (em : OpenAIEmbeddings) (s : Sys Vec) :
  (∀ idx, disk s !! "vectorstore" = Some idx → load_local_fault ext = None →
     (initialize_vector_store ext em s).1 = inr idx)
  ∧ (disk s !! "vectorstore" = None → embed_fault ext ["initialization"] = None →
     (initialize_vector_store ext em s).1 =
       inr [{| page_content := "initialization";
               embedding := embed ext "initialization"; metadata := [] |}])
  ∧ (∀ path an s',
       (∀ idx, disk s !! "vectorstore" = Some idx → idx ≠ []) →
       DocumentAnalyzer_init ext path s = (inr an, s') →
       vector_store an ≠ []).
Proof.
  split; [|split].
  - intros idx Hd Hload. rewrite initialize_vector_store_outcome, Hd. simpl.
    rewrite Hload. reflexivity.
  - intros Hd Hemb. rewrite initialize_vector_store_outcome, Hd. simpl.
    rewrite Hemb. reflexivity.
  - intros path an s' Hne Hinit.
    apply DocumentAnalyzer_init_inv in Hinit as (s1 & s2 & Hcfg & Hllm & Hvs).
    apply load_config_success in Hcfg as (key & _ & ->).
    apply setup_llm_state in Hllm as ->.
    rewrite initialize_vector_store_outcome in Hvs. simpl in Hvs.
    unfold logged_raise in Hvs.
    destruct (disk s !! "vectorstore") as [idx|] eqn:Hd.
    + destruct (load_local_fault ext); [discriminate|].
      injection Hvs as <- _. apply Hne. reflexivity.
    + destruct (embed_fault ext _); [discriminate|].
      injection Hvs as <- _. discriminate.
Qed.

(** C7. Construction of the analyzer raises whenever the settings file
    cannot be opened, cannot be parsed, or parses to a configuration that
    lacks the key ['openai_api_key']; when construction succeeds, the
    environment variable [OPENAI_API_KEY] holds the configured
    credential. *)
Theorem C7_configuration_required path (s : Sys Vec) :
  ((∃ e, open_read ext path = inl e)
   ∨ (∃ file e, open_read ext path = inr file ∧ yaml_safe_load ext file = inl e)
   ∨ (∃ file cfg, open_read ext path = inr file
        ∧ yaml_safe_load ext file = inr cfg
        ∧ has_key cfg "openai_api_key" = false) →
   ∃ e s', DocumentAnalyzer_init ext path s = (inl e, s'))
  ∧ (∀ an s', DocumentAnalyzer_init ext path s = (inr an, s') →
       ∃ key, subscript (config an) "openai_api_key" = inr (YStr key)
         ∧ environ s' !! "OPENAI_API_KEY" = Some key).
Proof.
  split.
  - intros Hbad.
    assert (∃ e s1, load_config ext path s = (inl e, s1)) as (e & s1 & Hraise).
    { rewrite load_config_outcome. unfold logged_raise.
      destruct Hbad as [[e ->]|[(file & e & -> & ->)|(file & cfg & -> & -> & Hno)]];
        [eauto|eauto|].
      destruct (subscript_absent _ _ Hno) as [e ->]. eauto. }
    exists e, s1. apply DocumentAnalyzer_init_raises. exact Hraise.
  - intros an s' Hinit.
    apply DocumentAnalyzer_init_inv in Hinit as (s1 & s2 & Hcfg & Hllm & Hvs).
    apply load_config_success in Hcfg as (key & Hkey & ->).
    apply setup_llm_state in Hllm as ->.
    apply initialize_vector_store_state in Hvs as [Henv _].
    exists key. split; [exact Hkey|]. rewrite Henv. simpl.
    apply lookup_insert_eq.
Qed.

End Startup.

Lemma C7_witness :
  (∃ e s', DocumentAnalyzer_init Demo.healthy "missing.yaml" Demo.fresh_sys = (inl e, s'))
  ∧ ∃ an s' key,
      startup Demo.healthy Demo.fresh_sys = (inr an, s')
      ∧ subscript (config an) "openai_api_key" = inr (YStr key)
      ∧ environ s' !! "OPENAI_API_KEY" = Some key.
Proof.
  split.
  - apply (C7_configuration_required Demo.healthy "missing.yaml" Demo.fresh_sys).
    left. eexists. reflexivity.
  - destruct (C7_configuration_required Demo.healthy "config/config.yaml" Demo.fresh_sys)
      as [_ Hok].
    destruct (Hok _ _ eq_refl) as (key & Hkey & Henv).
    eexists _, _, key. split; [reflexivity|]. split; assumption.
Defined.

(** ** Failures during ingestion *)

Section PipelineFailures.

Context {Vec : Type} (ext : Externals Vec).

(** C4. Ingestion calls the splitter, the insertion, the persisting and
    the summarization in this order, stopping at the first that raises.
    When the insertion succeeds and persisting raises [e], ingestion
    raises [e] after logging it as a processing error; the chunks stay in
    the in-memory index, what is persisted on disk is as before, and so
    the two differ. *)
Theorem C4_order_and_no_rollback content (md : Dict) (a : App Vec) :
  let out := process_document ext content md a in
  let steps :=
    [CallSplitText {| chunk_size := 1000; chunk_overlap := 200 |} content;
     CallAddTexts (chunks_of ext content)
       (replicate (length (chunks_of ext content)) md);
     CallSaveLocal "vectorstore";
     CallRun summary_question] in
  (∃ n, (2 <= n)%nat ∧ calls (sys out.2) = (calls (sys a) ++ take n steps)%list)
  ∧ (embed_fault ext (chunks_of ext content) = None →
     save_local_fault ext = None →
     calls (sys out.2) = (calls (sys a) ++ steps)%list)
  ∧ (∀ e, embed_fault ext (chunks_of ext content) = None →
       save_local_fault ext = Some e →
       out.1 = inl e
       ∧ vector_store (analyzer out.2) =
           (vector_store (analyzer a) ++ inserted ext content md)%list
       ∧ disk (sys out.2) = disk (sys a)
       ∧ log (sys out.2) =
           (log (sys a)
            ++ [(ERROR, ("Error processing document: " ++ str_e e)%string)])%list
       ∧ (disk (sys a) !! "vectorstore" = Some (vector_store (analyzer a)) →
          inserted ext content md ≠ [] →
          disk (sys out.2) !! "vectorstore" ≠ Some (vector_store (analyzer out.2)))).
Proof.
  intros out steps. subst out steps. rewrite <- fmap_const_replicate.
  rewrite process_document_outcome. split; [|split].
  - destruct (embed_fault ext _); [exists 2%nat; split; [lia|reflexivity]|].
    destruct (save_local_fault ext); [exists 3%nat; split; [lia|reflexivity]|].
    simpl. destruct (qa_run ext _ _); exists 4%nat; (split; [lia|reflexivity]).
  - intros -> ->. simpl. destruct (qa_run ext _ _); reflexivity.
  - intros e -> ->. simpl. repeat (split; [reflexivity|]).
    intros Hsync Hnew. rewrite Hsync. intros [= Heq]. apply Hnew.
    apply (app_inv_head (vector_store (analyzer a))). rewrite app_nil_r.
    symmetry. exact Heq.
Qed.

(** C10. When the chunks were inserted and persisted and the
    summarization raises [e], [/analyze] answers with status 500 and the
    processing-error body, while the document's chunks are in the
    in-memory index and in the index persisted at ["vectorstore"]. *)
Theorem C10_error_after_mutation file payload content e (a : App Vec) :
  let md := upload_metadata file (now_isoformat ext (clock (sys a))) in
  let idx := (vector_store (analyzer a) ++ inserted ext content md)%list in
  read file = inr payload →
  len payload <= 10485760 →
  decode_utf8 payload = inr content →
  embed_fault ext (chunks_of ext content) = None →
  save_local_fault ext = None →
  qa_run ext
    {| qa_llm := llm (analyzer a); qa_chain_type := "stuff";
       qa_retriever := {| retriever_store := idx |} |}
    summary_question = inl e →
  ∃ a',
    analyze_document ext file a =
      (inr {| status_code := 500;
              content := JSONBody
                (JObj [("error", JStr ("Error processing document: " ++ str_e e))]) |},
       a')
    ∧ vector_store (analyzer a') = idx
    ∧ disk (sys a') !! "vectorstore" = Some idx.
Proof.
  intros md idx Hread Hlen Hdec Hemb Hsave Hrun. subst md idx.
  rewrite analyze_document_outcome, Hread.
  rewrite bool_decide_eq_false_2 by lia. rewrite Hdec.
  rewrite process_document_outcome, Hemb, Hsave. simpl.
  unfold chain_over. simpl. rewrite ?app_nil_r. rewrite Hrun.
  eexists. split; [reflexivity|]. simpl. rewrite ?app_nil_r.
  split; [reflexivity|]. apply lookup_insert_eq.
Qed.

End PipelineFailures.

Lemma C4_witness :
  (process_document (Demo.ext None (Some Demo.boom) (inr "unused"))
     Demo.note Demo.note_metadata Demo.app).1 = inl Demo.boom
  ∧ vector_store
      (analyzer
         (process_document (Demo.ext None (Some Demo.boom) (inr "unused"))
            Demo.note Demo.note_metadata Demo.app).2) =
      [Demo.placeholder;
       {| page_content := Demo.note; embedding := 31; metadata := Demo.note_metadata |}]
  ∧ disk
      (sys
         (process_document (Demo.ext None (Some Demo.boom) (inr "unused"))
            Demo.note Demo.note_metadata Demo.app).2) = ∅
  ∧ log
      (sys
         (process_document (Demo.ext None (Some Demo.boom) (inr "unused"))
            Demo.note Demo.note_metadata Demo.app).2) =
      [(ERROR, "Error processing document: connection reset")].
Proof.
  destruct (C4_order_and_no_rollback (Demo.ext None (Some Demo.boom) (inr "unused"))
              Demo.note Demo.note_metadata Demo.app) as (_ & _ & H).
  destruct (H Demo.boom eq_refl eq_refl) as (H1 & H2 & H3 & H4 & _).
  repeat split; assumption.
Defined.

Lemma C10_witness :
  ∃ a',
    analyze_document (Demo.ext None None (inl Demo.boom))
      (Demo.upload "note.txt" (String.list_byte_of_string Demo.note)) Demo.app =
      (inr {| status_code := 500;
              content := JSONBody
                (JObj [("error", JStr "Error processing document: connection reset")]) |},
       a')
    ∧ vector_store (analyzer a') =
        [Demo.placeholder;
         {| page_content := Demo.note; embedding := 31;
            metadata := [("filename", JStr "note.txt");
                         ("timestamp", JStr "2024-05-01T10:00:00");
                         ("version", JStr "1.0")] |}]
    ∧ disk (sys a') !! "vectorstore" =
        Some [Demo.placeholder;
              {| page_content := Demo.note; embedding := 31;
                 metadata := [("filename", JStr "note.txt");
                              ("timestamp", JStr "2024-05-01T10:00:00");
                              ("version", JStr "1.0")] |}].
Proof.
  apply (C10_error_after_mutation (Demo.ext None None (inl Demo.boom))
           (Demo.upload "note.txt" (String.list_byte_of_string Demo.note))
           (String.list_byte_of_string Demo.note) Demo.note Demo.boom Demo.app).
  - reflexivity.
  - vm_compute. discriminate.
  - reflexivity.
  - reflexivity.
  - reflexivity.
  - reflexivity.
Defined.

(** ** Successful ingestion *)

Section Summarization.

Context {Vec : Type} (ext : Externals Vec).

(** C5, as the code has it.  When inserting and persisting succeed,
    ingestion asks one question, the string ["Provide a brief summary of
    the main topics in this document."], of a chain whose retriever is
    over the whole in-memory index (the earlier entries followed by the
    new chunks), after the insertion and the persisting; when the chain
    answers, ingestion returns the record with status ["success"], the
    timestamp read from the clock, the submitted metadata and the answer
    under ["analysis"]. *)
Theorem C5_summary_over_whole_index content (md : Dict) analysis (a : App Vec) :
  let idx := (vector_store (analyzer a) ++ inserted ext content md)%list in
  let out := process_document ext content md a in
  embed_fault ext (chunks_of ext content) = None →
  save_local_fault ext = None →
  qa_run ext
    {| qa_llm := llm (analyzer a); qa_chain_type := "stuff";
       qa_retriever := {| retriever_store := idx |} |}
    "Provide a brief summary of the main topics in this document." = inr analysis →
  out.1 = inr [("status", JStr "success");
               ("timestamp", JStr (now_isoformat ext (clock (sys a))));
               ("metadata", JObj md);
               ("analysis", JStr analysis)]
  ∧ vector_store (analyzer out.2) = idx
  ∧ disk (sys out.2) !! "vectorstore" = Some idx
  ∧ calls (sys out.2) =
      (calls (sys a)
       ++ [CallSplitText {| chunk_size := 1000; chunk_overlap := 200 |} content;
           CallAddTexts (chunks_of ext content)
             (replicate (length (chunks_of ext content)) md);
           CallSaveLocal "vectorstore";
           CallRun "Provide a brief summary of the main topics in this document."])%list.
Proof.
  intros idx out Hemb Hsave Hrun. subst idx out.
  rewrite <- fmap_const_replicate.
  rewrite process_document_outcome, Hemb, Hsave. simpl.
  unfold chain_over, summary_question. rewrite Hrun. simpl.
  split; [reflexivity|]. split; [reflexivity|]. split; [|reflexivity].
  apply lookup_insert_eq.
Qed.

End Summarization.

(** On the demo deployment ingestion succeeds, and the string
    ["provide a brief summary of the main topics"] is not among the
    questions it asked. *)
Lemma C5_counterexample :
  (process_document Demo.healthy Demo.note Demo.note_metadata Demo.app).1 =
    inr [("status", JStr "success");
         ("timestamp", JStr "2024-05-01T10:00:00");
         ("metadata", JObj Demo.note_metadata);
         ("analysis", JStr "A note on coffee.")]
  ∧ ¬ In (CallRun "provide a brief summary of the main topics")
        (calls (sys (process_document Demo.healthy Demo.note Demo.note_metadata
                       Demo.app).2)).
Proof.
  split; [reflexivity|]. simpl.
  intros [H|[H|[H|[H|[]]]]]; discriminate H.
Qed.

Lemma C5_witness :
  (process_document Demo.healthy Demo.note Demo.note_metadata Demo.app).1 =
    inr [("status", JStr "success");
         ("timestamp", JStr "2024-05-01T10:00:00");
         ("metadata", JObj Demo.note_metadata);
         ("analysis", JStr "A note on coffee.")]
  ∧ vector_store
      (analyzer (process_document Demo.healthy Demo.note Demo.note_metadata Demo.app).2) =
      [Demo.placeholder;
       {| page_content := Demo.note; embedding := 31; metadata := Demo.note_metadata |}].
Proof.
  destruct (C5_summary_over_whole_index Demo.healthy Demo.note Demo.note_metadata
              "A note on coffee." Demo.app eq_refl eq_refl eq_refl) as (H1 & H2 & _).
  split; assumption.
Defined.

(** ** The error handlers of the endpoints *)

Section Handlers.

Context {Vec : Type}.

(** C8. Whatever exception [e] the ingestion pipeline raises, [/analyze]
    answers with status 500 and the body [{"error": "Error processing
    document: " + str(e)}]; whatever exception the chain raises on a
    question, [/query] answers with status 500 and the body [{"error":
    "Error querying documents: " + str(e)}]; and both handlers return a
    response on every input, so that no exception leaves them. *)
Theorem C8_pipeline_errors_become_500 (ext : Externals Vec) :
  (∀ file payload content e (a : App Vec),
     read file = inr payload →
     len payload <= 10485760 →
     decode_utf8 payload = inr content →
     (process_document ext content
        (upload_metadata file (now_isoformat ext (clock (sys a))))
        (evolve a [] false [] [(DEBUG, "Received file: " ++ filename file)] 1)).1
       = inl e →
     (analyze_document ext file a).1 =
       inr {| status_code := 500;
              content := JSONBody
                (JObj [("error", JStr ("Error processing document: " ++ str_e e))]) |})
  ∧ (∀ question e (a : App Vec),
       qa_run ext
         {| qa_llm := llm (analyzer a); qa_chain_type := "stuff";
            qa_retriever := {| retriever_store := vector_store (analyzer a) |} |}
         question = inl e →
       (query_documents ext question a).1 =
         inr {| status_code := 500;
                content := JSONBody
                  (JObj [("error", JStr ("Error querying documents: " ++ str_e e))]) |})
  ∧ (∀ file (a : App Vec), ∃ response, (analyze_document ext file a).1 = inr response)
  ∧ (∀ question (a : App Vec), ∃ response, (query_documents ext question a).1 = inr response).
Proof.
  split; [|split; [|split]].
  - intros file payload content e a Hread Hlen Hdec Hraise.
    rewrite analyze_document_outcome, Hread.
    rewrite bool_decide_eq_false_2 by lia. rewrite Hdec.
    unfold received.
    destruct (process_document ext content _ _) as [[e'|result] a'];
      simpl in Hraise; [|discriminate].
    injection Hraise as ->. reflexivity.
  - intros question e a Hrun. rewrite query_documents_outcome.
    unfold chain_over. rewrite Hrun. reflexivity.
  - intros file a. rewrite analyze_document_outcome.
    destruct (read file) as [e|payload]; [eauto|].
    case_bool_decide; [eauto|].
    destruct (decode_utf8 payload) as [e|content]; [eauto|].
    destruct (process_document ext content _ _) as [[e|result] a']; eauto.
  - intros question a. rewrite query_documents_outcome.
    destruct (qa_run ext _ question); eauto.
Qed.

(** What each request does to the store and to what is persisted. *)
Lemma handle_effect (ext : Externals Vec) r (a : App Vec) :
  ∃ added persisted cs lg t,
    (handle ext r a).2 = evolve a added persisted cs lg t.
Proof.
  destruct r as [|file|question]; simpl.
  - exists [], false, [], [], 0%nat.
    destruct a as [[cfg l em vs] [env dk lg cs ck]].
    unfold read_root, evolve. unfold_ops. same_outcome.
  - rewrite analyze_document_outcome.
    destruct (read file) as [e|payload]; [eauto 10|].
    case_bool_decide; [eauto 10|].
    destruct (decode_utf8 payload) as [e|content]; [eauto 10|].
    rewrite process_document_outcome.
    destruct a as [[cfg l em vs] [env dk lg cs ck]].
    set (md := upload_metadata file (now_isoformat ext ck)).
    destruct (embed_fault ext _) as [e|].
    { exists [], false, [call_split content; call_add ext content md],
        [received file; processing_error e; processing_error e], 1%nat.
      unfold evolve. same_outcome. }
    destruct (save_local_fault ext) as [e|].
    { exists (inserted ext content md), false,
        [call_split content; call_add ext content md; CallSaveLocal "vectorstore"],
        [received file; processing_error e; processing_error e], 1%nat.
      unfold evolve. same_outcome. }
    simpl. destruct (qa_run ext _ _) as [e|analysis].
    + exists (inserted ext content md), true,
        [call_split content; call_add ext content md; CallSaveLocal "vectorstore";
         CallRun summary_question],
        [received file; processing_error e; processing_error e], 1%nat.
      unfold evolve. same_outcome.
    + exists (inserted ext content md), true,
        [call_split content; call_add ext content md; CallSaveLocal "vectorstore";
         CallRun summary_question],
        [received file], 2%nat.
      unfold evolve. same_outcome.
  - rewrite query_documents_outcome.
    destruct (qa_run ext _ question); simpl; eauto 10.
Qed.

(** A non-empty index stays non-empty, and so does what is persisted. *)
Lemma handle_keeps_nonempty (ext : Externals Vec) r (a : App Vec) :
  vector_store (analyzer a) ≠ [] →
  (∀ idx, disk (sys a) !! "vectorstore" = Some idx → idx ≠ []) →
  vector_store (analyzer (handle ext r a).2) ≠ []
  ∧ (∀ idx, disk (sys (handle ext r a).2) !! "vectorstore" = Some idx → idx ≠ []).
Proof.
  intros Hmem Hdisk.
  destruct (handle_effect ext r a) as (added & p & cs & lg & t & ->). simpl.
  assert (vector_store (analyzer a) ++ added ≠ [])%list as Hne.
  { intros Heq. apply app_eq_nil in Heq as [? _]. auto. }
  split; [exact Hne|]. intros idx. destruct p; [|apply Hdisk].
  rewrite lookup_insert_eq. intros [= <-]. exact Hne.
Qed.

Lemma handle_store_grows (ext : Externals Vec) r (a : App Vec) :
  vector_store (analyzer a) `prefix_of` vector_store (analyzer (handle ext r a).2).
Proof.
  destruct (handle_effect ext r a) as (added & p & cs & lg & t & ->).
  exists added. reflexivity.
Qed.

Lemma serve_store_grows rs (a : App Vec) :
  vector_store (analyzer a) `prefix_of` vector_store (analyzer (serve rs a).2).
Proof.
  revert a. induction rs as [|[ext r] rs IH]; intros a; simpl; [reflexivity|].
  pose proof (handle_store_grows ext r a) as Hstep.
  destruct (handle ext r a) as [out a1]. simpl in Hstep.
  specialize (IH a1). destruct (serve rs a1) as [outs a2]. simpl in *.
  etrans; eassumption.
Qed.

(** C9. Under every request, and under every sequence of requests, the
    in-memory index before is a prefix of the index after: entries are
    only appended, none is removed or changed.  What is persisted at
    ["vectorstore"] after a request is what was persisted before or the
    whole in-memory index.  A query and the landing page leave the index
    and the disk as they were. *)
Theorem C9_index_grows_monotonically :
  (∀ (ext : Externals Vec) r (a : App Vec),
     let a' := (handle ext r a).2 in
     vector_store (analyzer a) `prefix_of` vector_store (analyzer a')
     ∧ (∀ i en, vector_store (analyzer a) !! i = Some en →
                vector_store (analyzer a') !! i = Some en)
     ∧ (disk (sys a') = disk (sys a)
        ∨ disk (sys a') =
            <["vectorstore" := vector_store (analyzer a')]> (disk (sys a))))
  ∧ (∀ rs (a : App Vec),
       vector_store (analyzer a) `prefix_of` vector_store (analyzer (serve rs a).2))
  ∧ (∀ (ext : Externals Vec) question (a : App Vec),
       let a' := (query_documents ext question a).2 in
       vector_store (analyzer a') = vector_store (analyzer a)
       ∧ disk (sys a') = disk (sys a))
  ∧ (∀ a : App Vec, (read_root a).2 = a).
Proof.
  split; [|split; [|split]].
  - intros ext r a a'. subst a'.
    destruct (handle_effect ext r a) as (added & p & cs & lg & t & ->).
    split; [exists added; reflexivity|]. split.
    + intros i en Hi. simpl. apply lookup_app_l_Some. exact Hi.
    + simpl. destruct p; auto.
  - apply serve_store_grows.
  - intros ext question a a'. subst a'. rewrite query_documents_outcome.
    destruct (qa_run ext _ question); simpl; rewrite app_nil_r; auto.
  - intros a. reflexivity.
Qed.

End Handlers.

Lemma C8_witness :
  (analyze_document (Demo.ext (Some Demo.boom) None (inr "unused"))
     (Demo.upload "note.txt" (String.list_byte_of_string Demo.note)) Demo.app).1 =
    inr {| status_code := 500;
           content := JSONBody
             (JObj [("error", JStr "Error processing document: connection reset")]) |}
  ∧ (query_documents (Demo.ext None None (inl Demo.boom)) "What is brewed?" Demo.app).1 =
      inr {| status_code := 500;
             content := JSONBody
               (JObj [("error", JStr "Error querying documents: connection reset")]) |}.
Proof.
  split.
  - destruct (C8_pipeline_errors_become_500 (Demo.ext (Some Demo.boom) None (inr "unused")))
      as (H & _).
    apply (H (Demo.upload "note.txt" (String.list_byte_of_string Demo.note))
             (String.list_byte_of_string Demo.note) Demo.note Demo.boom Demo.app).
    + reflexivity.
    + vm_compute. discriminate.
    + reflexivity.
    + reflexivity.
  - destruct (C8_pipeline_errors_become_500 (Demo.ext None None (inl Demo.boom)))
      as (_ & H & _).
    apply (H "What is brewed?" Demo.boom Demo.app). reflexivity.
Defined.

Lemma C9_witness :
  vector_store
    (analyzer
       (handle Demo.healthy
          (POST_analyze (Demo.upload "note.txt" (String.list_byte_of_string Demo.note)))
          Demo.app).2) !! 0%nat
  = Some Demo.placeholder.
Proof.
  destruct (@C9_index_grows_monotonically Z) as (H & _).
  destruct (H Demo.healthy
              (POST_analyze (Demo.upload "note.txt" (String.list_byte_of_string Demo.note)))
              Demo.app) as (_ & Hkeep & _).
  apply Hkeep. reflexivity.
Defined.

(** ** A session on the demo deployment

    Startup on a fresh machine, one upload and one question. *)
Example demo_session :
  ∃ an s,
    startup Demo.healthy Demo.fresh_sys = (inr an, s)
    ∧ environ s !! "OPENAI_API_KEY" = Some "sk-demo"
    ∧ vector_store an = [Demo.placeholder]
    ∧ (serve
         [(Demo.healthy,
           POST_analyze (Demo.upload "note.txt" (String.list_byte_of_string Demo.note)));
          (Demo.healthy, GET_query "What is brewed?")]
         {| analyzer := an; sys := s |}).1 =
      [inr (JSONResponse 200
              (JObj [("status", JStr "success");
                     ("timestamp", JStr "2024-05-01T10:00:01");
                     ("metadata",
                      JObj [("filename", JStr "note.txt");
                            ("timestamp", JStr "2024-05-01T10:00:00");
                            ("version", JStr "1.0")]);
                     ("analysis", JStr "A note on coffee.")]));
       inr (JSONResponse 200
              (JObj [("question", JStr "What is brewed?");
                     ("answer", JStr "A note on coffee.")]))].
Proof. eexists _, _. repeat split. Qed.

(** ** The upload endpoint, case by case *)

Section Uploads.

Context {Vec : Type} (ext : Externals Vec).

Lemma decode_utf8_valid bs :
  utf8_valid (Byte.to_N <$> bs) = true →
  decode_utf8 bs = inr (String.string_of_list_byte bs).
Proof. intros H. unfold decode_utf8. rewrite H. reflexivity. Qed.

Lemma utf8_valid_ascii_bytes ns :
  Forall (λ n, (n < 128)%N) ns → utf8_valid ns = true.
Proof.
  induction 1 as [|n ns Hn _ IH]; [reflexivity|].
  cbn [utf8_valid]. replace (n <=? 127)%N with true; [exact IH|].
  symmetry. apply N.leb_le. lia.
Qed.

(** X1. When reading the upload raises [e], [/analyze] answers with
    status 500 and the body [{"error": "Upload error: " + str(e)}]; the
    analyzer and the disk are unchanged, no call reaches the index, and
    the log gains the receipt and the error. *)
Theorem X1_unreadable_upload file e (a : App Vec) :
  read file = inl e →
  ∃ a',
    analyze_document ext file a =
      (inr {| status_code := 500;
              content := JSONBody
                (JObj [("error", JStr ("Upload error: " ++ str_e e))]) |},
       a')
    ∧ analyzer a' = analyzer a
    ∧ disk (sys a') = disk (sys a)
    ∧ calls (sys a') = calls (sys a)
    ∧ log (sys a') =
        (log (sys a)
         ++ [(DEBUG, ("Received file: " ++ filename file)%string);
             (ERROR, ("Upload error: " ++ str_e e)%string)])%list.
Proof.
  intros Hread. rewrite analyze_document_outcome, Hread.
  eexists. split; [reflexivity|].
  destruct (evolve_log_only a
              [received file; (ERROR, ("Upload error: " ++ str_e e)%string)])
    as (Han & Hd & Hc).
  repeat split; assumption || reflexivity.
Qed.

(** X2. For an upload that can be read, [/analyze] answers with status
    200, 400 or 500, and with 400 exactly when the payload has more than
    10485760 bytes or is not well-formed UTF-8. *)
Theorem X2_client_error_iff file payload (a : App Vec) :
  read file = inr payload →
  ∃ response,
    (analyze_document ext file a).1 = inr response
    ∧ (status_code response = 400
       ↔ len payload > 10485760 ∨ utf8_valid (Byte.to_N <$> payload) = false)
    ∧ (status_code response = 200 ∨ status_code response = 400
       ∨ status_code response = 500).
Proof.
  intros Hread. rewrite analyze_document_outcome, Hread.
  case_bool_decide as Hlen.
  { eexists. split; [reflexivity|]. simpl. split; [|auto]. split; auto. }
  unfold decode_utf8.
  destruct (utf8_valid (Byte.to_N <$> payload)) eqn:Hvalid.
  - destruct (process_document ext _ _ _) as [[e|result] a'];
      (eexists; split; [reflexivity|]; simpl; split; [|auto]);
      (split; [discriminate|]); intros [?|?]; [lia|discriminate|lia|discriminate].
  - eexists. split; [reflexivity|]. simpl. split; [|auto]. split; auto.
Qed.

(** X3. When an upload is read, is within the limit, decodes, and the
    insertion, the persisting and the summarization succeed, [/analyze]
    answers with status 200 and the success record; the record's
    metadata and the metadata of every appended entry are the upload's
    file name, the first clock reading and version ["1.0"], and the
    record's own timestamp is the second clock reading. *)
Theorem X3_analyze_success file payload content analysis (a : App Vec) :
  let md := [("filename", JStr (filename file));
             ("timestamp", JStr (now_isoformat ext (clock (sys a))));
             ("version", JStr "1.0")] in
  let idx := (vector_store (analyzer a) ++ inserted ext content md)%list in
  read file = inr payload →
  len payload <= 10485760 →
  decode_utf8 payload = inr content →
  embed_fault ext (chunks_of ext content) = None →
  save_local_fault ext = None →
  qa_run ext
    {| qa_llm := llm (analyzer a); qa_chain_type := "stuff";
       qa_retriever := {| retriever_store := idx |} |}
    summary_question = inr analysis →
  ∃ a',
    analyze_document ext file a =
      (inr {| status_code := 200;
              content := JSONBody
                (JObj [("status", JStr "success");
                       ("timestamp", JStr (now_isoformat ext (S (clock (sys a)))));
                       ("metadata", JObj md);
                       ("analysis", JStr analysis)]) |},
       a')
    ∧ vector_store (analyzer a') = idx
    ∧ Forall (λ en, metadata en = md) (inserted ext content md)
    ∧ disk (sys a') !! "vectorstore" = Some idx
    ∧ clock (sys a') = S (S (clock (sys a))).
Proof.
  intros md idx Hread Hlen Hdec Hemb Hsave Hrun. subst idx.
  rewrite analyze_document_outcome, Hread.
  rewrite bool_decide_eq_false_2 by lia. rewrite Hdec.
  rewrite process_document_outcome, Hemb, Hsave. simpl.
  unfold chain_over, upload_metadata. simpl. rewrite ?app_nil_r.
  fold md. rewrite Hrun.
  eexists. split; [reflexivity|]. simpl. rewrite ?app_nil_r.
  split; [reflexivity|]. split; [apply documents_same_metadata|].
  split; [apply lookup_insert_eq|reflexivity].
Qed.

(** X4. When embedding the chunks raises [e], [/analyze] answers with
    status 500; nothing is appended to the index, nothing is persisted,
    neither persisting nor summarization is attempted, and the error is
    logged twice, by the pipeline and by the handler. *)
Theorem X4_embedding_failure file payload content e (a : App Vec) :
  let md := upload_metadata file (now_isoformat ext (clock (sys a))) in
  read file = inr payload →
  len payload <= 10485760 →
  decode_utf8 payload = inr content →
  embed_fault ext (chunks_of ext content) = Some e →
  ∃ a',
    analyze_document ext file a =
      (inr {| status_code := 500;
              content := JSONBody
                (JObj [("error", JStr ("Error processing document: " ++ str_e e))]) |},
       a')
    ∧ vector_store (analyzer a') = vector_store (analyzer a)
    ∧ disk (sys a') = disk (sys a)
    ∧ calls (sys a') =
        (calls (sys a)
         ++ [CallSplitText {| chunk_size := 1000; chunk_overlap := 200 |} content;
             CallAddTexts (chunks_of ext content)
               (replicate (length (chunks_of ext content)) md)])%list
    ∧ log (sys a') =
        (log (sys a)
         ++ [(DEBUG, ("Received file: " ++ filename file)%string);
             (ERROR, ("Error processing document: " ++ str_e e)%string);
             (ERROR, ("Error processing document: " ++ str_e e)%string)])%list.
Proof.
  intros md Hread Hlen Hdec Hemb. subst md.
  rewrite analyze_document_outcome, Hread.
  rewrite bool_decide_eq_false_2 by lia. rewrite Hdec.
  rewrite process_document_outcome, Hemb.
  rewrite <- fmap_const_replicate.
  eexists. split; [reflexivity|]. simpl. rewrite ?app_nil_r, <- ?app_assoc.
  repeat split; reflexivity.
Qed.

(** X5. The text that ingestion hands to the splitter is the payload
    itself: for a well-formed payload within the limit the first call is
    the split of a text whose bytes are the payload's. *)
Theorem X5_splitter_receives_payload file payload (a : App Vec) :
  read file = inr payload →
  len payload <= 10485760 →
  utf8_valid (Byte.to_N <$> payload) = true →
  ∃ text rest,
    calls (sys (analyze_document ext file a).2) =
      (calls (sys a)
       ++ CallSplitText {| chunk_size := 1000; chunk_overlap := 200 |} text :: rest)%list
    ∧ String.list_byte_of_string text = payload.
Proof.
  intros Hread Hlen Hvalid. rewrite analyze_document_outcome, Hread.
  rewrite bool_decide_eq_false_2 by lia.
  rewrite (decode_utf8_valid _ Hvalid).
  exists (String.string_of_list_byte payload).
  destruct (process_document_calls ext (String.string_of_list_byte payload)
              (upload_metadata file (now_isoformat ext (clock (sys a))))
              (evolve a [] false [] [received file] 1)) as [rest Hrest].
  destruct (process_document ext _ _ _) as [[e|result] a']; simpl in Hrest.
  - eexists. simpl. rewrite app_nil_r, Hrest. simpl. rewrite app_nil_r.
    split; [reflexivity|]. apply String.list_byte_of_string_of_list_byte.
  - eexists. simpl. rewrite Hrest. simpl. rewrite app_nil_r.
    split; [reflexivity|]. apply String.list_byte_of_string_of_list_byte.
Qed.

(** X6. An upload within the limit whose bytes are all below 128 is never
    answered with status 400. *)
Theorem X6_ascii_upload_accepted file payload (a : App Vec) :
  read file = inr payload →
  len payload <= 10485760 →
  Forall (λ b, (Byte.to_N b < 128)%N) payload →
  ∃ response,
    (analyze_document ext file a).1 = inr response
    ∧ status_code response ≠ 400.
Proof.
  intros Hread Hlen Hascii. rewrite analyze_document_outcome, Hread.
  rewrite bool_decide_eq_false_2 by lia.
  rewrite decode_utf8_valid.
  - destruct (process_document ext _ _ _) as [[e|result] a'];
      eexists; (split; [reflexivity|]); discriminate.
  - apply utf8_valid_ascii_bytes. apply Forall_fmap. exact Hascii.
Qed.

End Uploads.

Lemma X1_witness :
  (analyze_document Demo.healthy Demo.broken_upload Demo.app).1 =
    inr {| status_code := 500;
           content := JSONBody (JObj [("error", JStr "Upload error: connection reset")]) |}.
Proof.
  destruct (X1_unreadable_upload Demo.healthy Demo.broken_upload Demo.boom Demo.app
              eq_refl) as (a' & -> & _).
  reflexivity.
Defined.

Lemma X2_witness :
  ∃ response,
    (analyze_document Demo.healthy (Demo.upload "blob.bin" [xc0; x80]) Demo.app).1
      = inr response
    ∧ (status_code response = 400
       ↔ len [xc0; x80] > 10485760 ∨ utf8_valid (Byte.to_N <$> [xc0; x80]) = false)
    ∧ (status_code response = 200 ∨ status_code response = 400
       ∨ status_code response = 500).
Proof.
  apply (X2_client_error_iff Demo.healthy (Demo.upload "blob.bin" [xc0; x80])
           [xc0; x80] Demo.app).
  reflexivity.
Defined.

Lemma X3_witness :
  (analyze_document Demo.healthy Demo.note_upload Demo.app).1 =
    inr {| status_code := 200;
           content := JSONBody
             (JObj [("status", JStr "success");
                    ("timestamp", JStr "2024-05-01T10:00:01");
                    ("metadata",
                     JObj [("filename", JStr "note.txt");
                           ("timestamp", JStr "2024-05-01T10:00:00");
                           ("version", JStr "1.0")]);
                    ("analysis", JStr "A note on coffee.")]) |}.
Proof.
  destruct (X3_analyze_success Demo.healthy Demo.note_upload
              (String.list_byte_of_string Demo.note) Demo.note "A note on coffee."
              Demo.app) as (a' & -> & _); try reflexivity.
  vm_compute. discriminate.
Defined.

Lemma X4_witness :
  ∃ a',
    analyze_document (Demo.ext (Some Demo.boom) None (inr "unused"))
      Demo.note_upload Demo.app =
      (inr {| status_code := 500;
              content := JSONBody
                (JObj [("error", JStr "Error processing document: connection reset")]) |},
       a')
    ∧ vector_store (analyzer a') = [Demo.placeholder]
    ∧ disk (sys a') = ∅.
Proof.
  destruct (X4_embedding_failure (Demo.ext (Some Demo.boom) None (inr "unused"))
              Demo.note_upload (String.list_byte_of_string Demo.note) Demo.note
              Demo.boom Demo.app) as (a' & H1 & H2 & H3 & _); try reflexivity.
  - vm_compute. discriminate.
  - exists a'. repeat split; assumption.
Defined.

Lemma X5_witness :
  ∃ text rest,
    calls (sys (analyze_document Demo.healthy Demo.note_upload Demo.app).2) =
      (calls (sys Demo.app)
       ++ CallSplitText {| chunk_size := 1000; chunk_overlap := 200 |} text :: rest)%list
    ∧ String.list_byte_of_string text = String.list_byte_of_string Demo.note.
Proof.
  apply (X5_splitter_receives_payload Demo.healthy Demo.note_upload
           (String.list_byte_of_string Demo.note) Demo.app).
  - reflexivity.
  - vm_compute. discriminate.
  - reflexivity.
Defined.

Lemma X6_witness :
  ∃ response,
    (analyze_document Demo.healthy (Demo.upload "hi.txt" [x68; x69]) Demo.app).1
      = inr response
    ∧ status_code response ≠ 400.
Proof.
  apply (X6_ascii_upload_accepted Demo.healthy (Demo.upload "hi.txt" [x68; x69])
           [x68; x69] Demo.app).
  - reflexivity.
  - vm_compute. discriminate.
  - repeat constructor.
Defined.

(** ** The query endpoint *)

Section Queries.

Context {Vec : Type}.

(** X7. When the chain answers, [/query] responds with status 200 and the
    body [{"question": ..., "answer": ...}], the question as it was
    asked; the analyzer, the disk, the log and the clock are unchanged,
    and the only call made is the run of the question. *)
Theorem X7_query_success (ext : Externals Vec) question answer (a : App Vec) :
  qa_run ext
    {| qa_llm := llm (analyzer a); qa_chain_type := "stuff";
       qa_retriever := {| retriever_store := vector_store (analyzer a) |} |}
    question = inr answer →
  ∃ a',
    query_documents ext question a =
      (inr {| status_code := 200;
              content := JSONBody
                (JObj [("question", JStr question); ("answer", JStr answer)]) |},
       a')
    ∧ analyzer a' = analyzer a
    ∧ disk (sys a') = disk (sys a)
    ∧ log (sys a') = log (sys a)
    ∧ clock (sys a') = clock (sys a)
    ∧ calls (sys a') = (calls (sys a) ++ [CallRun question])%list.
Proof.
  intros Hrun. rewrite query_documents_outcome. unfold chain_over. rewrite Hrun.
  eexists. split; [reflexivity|].
  destruct a as [[cfg l em vs] [env dk lg cs ck]]. simpl.
  rewrite !app_nil_r. repeat split; reflexivity.
Qed.

(** X8. A query that follows an ingestion whose insertion succeeded runs
    over the earlier entries followed by the new chunks, whether or not
    the persisting and the summarization of that ingestion succeeded. *)
Theorem X8_query_sees_ingested_chunks (ext1 ext2 : Externals Vec)
    content (md : Dict) question (a : App Vec) :
  embed_fault ext1 (chunks_of ext1 content) = None →
  (query_documents ext2 question (process_document ext1 content md a).2).1 =
  match
    qa_run ext2
      {| qa_llm := llm (analyzer a); qa_chain_type := "stuff";
         qa_retriever :=
           {| retriever_store :=
                (vector_store (analyzer a) ++ inserted ext1 content md)%list |} |}
      question
  with
  | inr answer =>
      inr {| status_code := 200;
             content := JSONBody
               (JObj [("question", JStr question); ("answer", JStr answer)]) |}
  | inl e =>
      inr {| status_code := 500;
             content := JSONBody
               (JObj [("error", JStr ("Error querying documents: " ++ str_e e))]) |}
  end.
Proof.
  intros Hemb. rewrite query_documents_outcome.
  rewrite process_document_outcome, Hemb. unfold chain_over.
  destruct (save_local_fault ext1) as [e|]; simpl.
  - destruct (qa_run ext2 _ question); reflexivity.
  - destruct (qa_run ext1 _ summary_question); simpl;
      destruct (qa_run ext2 _ question); reflexivity.
Qed.

End Queries.

Lemma X7_witness :
  (query_documents Demo.healthy "What is brewed?" Demo.app).1 =
    inr {| status_code := 200;
           content := JSONBody
             (JObj [("question", JStr "What is brewed?");
                    ("answer", JStr "A note on coffee.")]) |}.
Proof.
  destruct (X7_query_success Demo.healthy "What is brewed?" "A note on coffee."
              Demo.app eq_refl) as (a' & -> & _).
  reflexivity.
Defined.

Lemma X8_witness :
  (query_documents Demo.healthy "What is brewed?"
     (process_document (Demo.ext None (Some Demo.boom) (inr "unused"))
        Demo.note Demo.note_metadata Demo.app).2).1 =
    inr {| status_code := 200;
           content := JSONBody
             (JObj [("question", JStr "What is brewed?");
                    ("answer", JStr "A note on coffee.")]) |}.
Proof.
  rewrite (X8_query_sees_ingested_chunks
             (Demo.ext None (Some Demo.boom) (inr "unused")) Demo.healthy
             Demo.note Demo.note_metadata "What is brewed?" Demo.app eq_refl).
  reflexivity.
Defined.

(** ** Startup, step by step *)

Section StartupSteps.

Context {Vec : Type} (ext : Externals Vec).

(** Symbolic execution of [DocumentAnalyzer.__init__]. *)
Lemma DocumentAnalyzer_init_outcome path (s : Sys Vec) :
  DocumentAnalyzer_init ext path s =
  match load_config ext path s with
  | (inl e, s1) => (inl e, s1)
  | (inr cfg, s1) =>
    match setup_llm ext s1 with
    | (inl e, s2) => (inl e, s2)
    | (inr le, s2) =>
      match initialize_vector_store ext le.2 s2 with
      | (inl e, s3) => (inl e, s3)
      | (inr vs, s3) =>
          (inr {| config := cfg; llm := le.1; embeddings := le.2;
                  vector_store := vs |}, s3)
      end
    end
  end.
Proof.
  unfold DocumentAnalyzer_init. unfold mbind, M_bind, mret, M_ret.
  destruct (load_config ext path s) as [[e|cfg] s1]; [reflexivity|].
  destruct (setup_llm ext s1) as [[e|le] s2]; [reflexivity|].
  destruct (initialize_vector_store ext le.2 s2) as [[e|vs] s3]; reflexivity.
Qed.

Lemma load_config_failure path (s : Sys Vec) e s' :
  load_config ext path s = (inl e, s') →
  s' = set_log (λ lg, (lg ++ [(ERROR, ("Error loading config: " ++ str_e e)%string)])%list) s.
Proof.
  rewrite load_config_outcome. unfold logged_raise.
  destruct (open_read ext path) as [e0|file]; [intros [= <- <-]; reflexivity|].
  destruct (yaml_safe_load ext file) as [e0|cfg]; [intros [= <- <-]; reflexivity|].
  destruct (subscript cfg "openai_api_key") as [e0|v];
    [intros [= <- <-]; reflexivity|].
  destruct v; try (intros [= <- <-]; reflexivity).
  destruct (has_nul s0); [intros [= <- <-]; reflexivity|discriminate].
Qed.

Lemma setup_llm_failure (s : Sys Vec) e s' :
  setup_llm ext s = (inl e, s') →
  s' = set_log (λ lg, (lg ++ [(ERROR, ("Error setting up LLM: " ++ str_e e)%string)])%list) s.
Proof.
  rewrite setup_llm_outcome. unfold logged_raise.
  destruct (llm_fault ext); [intros [= <- <-]; reflexivity|].
  destruct (embeddings_fault ext); [intros [= <- <-]; reflexivity|discriminate].
Qed.

(** What each method of the constructor leaves alone. *)
Lemma load_config_frame path (s : Sys Vec) :
  disk (load_config ext path s).2 = disk s
  ∧ calls (load_config ext path s).2 = calls s.
Proof.
  destruct (load_config ext path s) as [[e|cfg] s'] eqn:H; simpl.
  - apply load_config_failure in H as ->. auto.
  - apply load_config_success in H as (key & _ & ->). auto.
Qed.

Lemma setup_llm_frame (s : Sys Vec) :
  disk (setup_llm ext s).2 = disk s
  ∧ calls (setup_llm ext s).2 = calls s
  ∧ environ (setup_llm ext s).2 = environ s.
Proof.
  destruct (setup_llm ext s) as [[e|le] s'] eqn:H; simpl.
  - apply setup_llm_failure in H as ->. auto.
  - apply setup_llm_state in H as ->. auto.
Qed.

Lemma initialize_vector_store_frame em (s : Sys Vec) :
  disk (initialize_vector_store ext em s).2 = disk s
  ∧ environ (initialize_vector_store ext em s).2 = environ s.
Proof.
  rewrite initialize_vector_store_outcome. unfold logged_raise.
  destruct (disk s !! "vectorstore"); simpl.
  - destruct (load_local_fault ext); auto.
  - destruct (embed_fault ext _); auto.
Qed.

(** X9. What ingestion persists is what a restart loads: after an
    ingestion whose insertion and persisting succeeded, initializing the
    vector store on the resulting machine yields the in-memory index of
    the process that wrote it. *)
Theorem X9_restart_reloads_persisted (ext' : Externals Vec) em
    content (md : Dict) (a : App Vec) :
  embed_fault ext (chunks_of ext content) = None →
  save_local_fault ext = None →
  load_local_fault ext' = None →
  (initialize_vector_store ext' em (sys (process_document ext content md a).2)).1 =
    inr (vector_store (analyzer (process_document ext content md a).2)).
Proof.
  intros Hemb Hsave Hload. rewrite initialize_vector_store_outcome.
  rewrite process_document_outcome, Hemb, Hsave. simpl.
  destruct (qa_run ext _ summary_question); simpl;
    rewrite lookup_insert_eq; simpl; rewrite Hload; reflexivity.
Qed.

(** Construction of the analyzer leaves the persisted indexes alone. *)
Lemma DocumentAnalyzer_init_disk path (s : Sys Vec) :
  disk (DocumentAnalyzer_init ext path s).2 = disk s.
Proof.
  rewrite DocumentAnalyzer_init_outcome.
  destruct (load_config_frame path s) as [Hd1 _].
  destruct (load_config ext path s) as [[e|cfg] s1]; simpl in *; [exact Hd1|].
  destruct (setup_llm_frame s1) as [Hd2 _].
  destruct (setup_llm ext s1) as [[e|le] s2]; simpl in *; [congruence|].
  destruct (initialize_vector_store_frame le.2 s2) as [Hd3 _].
  destruct (initialize_vector_store ext le.2 s2) as [[e|vs] s3]; simpl in *; congruence.
Qed.

(** X11. Construction of the analyzer, whether it succeeds or raises,
    writes no vector-store directory: every persisted index is as it
    was, so an index newly built at startup is not persisted by startup.
    What construction writes is the log: nothing when it succeeds, and
    one error record carrying the exception text when it raises. *)
Theorem X11_startup_never_persists path (s : Sys Vec) :
  disk (DocumentAnalyzer_init ext path s).2 = disk s
  ∧ match (DocumentAnalyzer_init ext path s).1 with
    | inr _ => log (DocumentAnalyzer_init ext path s).2 = log s
    | inl e =>
        ∃ prefix,
          log (DocumentAnalyzer_init ext path s).2 =
            (log s ++ [(ERROR, (prefix ++ str_e e)%string)])%list
    end.
Proof.
  split; [apply DocumentAnalyzer_init_disk|].
  rewrite DocumentAnalyzer_init_outcome.
  destruct (load_config ext path s) as [[e|cfg] s1] eqn:Hcfg; simpl.
  { apply load_config_failure in Hcfg as ->. eexists. reflexivity. }
  apply load_config_success in Hcfg as (key & _ & ->).
  destruct (setup_llm ext _) as [[e|le] s2] eqn:Hllm; simpl.
  { apply setup_llm_failure in Hllm as ->. eexists. reflexivity. }
  apply setup_llm_state in Hllm as ->.
  rewrite initialize_vector_store_outcome. unfold logged_raise. simpl.
  destruct (disk s !! "vectorstore"); simpl.
  - destruct (load_local_fault ext); simpl; [eexists|]; reflexivity.
  - destruct (embed_fault ext _); simpl; [eexists|]; reflexivity.
Qed.

(** X12. When loading the configuration raises [e], construction raises
    [e]; the environment is unchanged, the error is logged once as
    ["Error loading config: ..."], and neither the model nor the index is
    set up (no call reaches the index). *)
Theorem X12_config_failure_stops_startup path (s : Sys Vec) e :
  (load_config ext path s).1 = inl e →
  ∃ s',
    DocumentAnalyzer_init ext path s = (inl e, s')
    ∧ environ s' = environ s
    ∧ calls s' = calls s
    ∧ log s' = (log s ++ [(ERROR, ("Error loading config: " ++ str_e e)%string)])%list.
Proof.
  intros Hraise. rewrite DocumentAnalyzer_init_outcome.
  destruct (load_config ext path s) as [[e'|cfg] s1] eqn:Hcfg;
    simpl in Hraise; [|discriminate].
  injection Hraise as ->. apply load_config_failure in Hcfg as ->.
  eexists. split; [reflexivity|]. auto.
Qed.

(** X13. A configuration whose ['openai_api_key'] is not a string, or is
    a string with a NUL character, makes construction raise a
    [TypeError] or a [ValueError]; the environment is unchanged. *)
Theorem X13_credential_must_be_text path file cfg v (s : Sys Vec) :
  open_read ext path = inr file →
  yaml_safe_load ext file = inr cfg →
  subscript cfg "openai_api_key" = inr v →
  (∀ key, v = YStr key → has_nul key = true) →
  ∃ e s',
    DocumentAnalyzer_init ext path s = (inl e, s')
    ∧ (exn_cls e = TypeError ∨ exn_cls e = ValueError)
    ∧ environ s' = environ s.
Proof.
  intros Hopen Hyaml Hsub Hbad. rewrite DocumentAnalyzer_init_outcome.
  rewrite load_config_outcome, Hopen, Hyaml, Hsub. unfold logged_raise.
  destruct v; try (eexists _, _; split; [reflexivity|]; simpl; auto).
  rewrite (Hbad _ eq_refl).
  eexists _, _. split; [reflexivity|]. simpl. auto.
Qed.

(** X14. After a successful construction the environment is the earlier
    one with [OPENAI_API_KEY] set to the configured credential: an
    earlier value of that variable is replaced and every other variable
    is as before. *)
Theorem X14_environ_only_api_key path (s : Sys Vec) an s' :
  DocumentAnalyzer_init ext path s = (inr an, s') →
  ∃ key,
    subscript (config an) "openai_api_key" = inr (YStr key)
    ∧ environ s' = <["OPENAI_API_KEY" := key]> (environ s)
    ∧ (∀ name, name ≠ "OPENAI_API_KEY" → environ s' !! name = environ s !! name).
Proof.
  intros Hinit.
  apply DocumentAnalyzer_init_inv in Hinit as (s1 & s2 & Hcfg & Hllm & Hvs).
  apply load_config_success in Hcfg as (key & Hkey & ->).
  apply setup_llm_state in Hllm as ->.
  apply initialize_vector_store_state in Hvs as [Henv _].
  exists key. split; [exact Hkey|]. rewrite Henv. simpl.
  split; [reflexivity|]. intros name Hne. apply lookup_insert_ne. congruence.
Qed.

(** X15. When the configuration loads and the construction of the model
    or of the embeddings raises [e], construction of the analyzer raises
    [e] without touching the index, and the credential stays exported in
    the environment. *)
Theorem X15_llm_failure_after_export path cfg s1 e (s : Sys Vec) :
  load_config ext path s = (inr cfg, s1) →
  llm_fault ext = Some e
  ∨ (llm_fault ext = None ∧ embeddings_fault ext = Some e) →
  ∃ key s',
    DocumentAnalyzer_init ext path s = (inl e, s')
    ∧ environ s' !! "OPENAI_API_KEY" = Some key
    ∧ subscript cfg "openai_api_key" = inr (YStr key)
    ∧ calls s' = calls s
    ∧ log s' = (log s ++ [(ERROR, ("Error setting up LLM: " ++ str_e e)%string)])%list.
Proof.
  intros Hcfg Hfault. rewrite DocumentAnalyzer_init_outcome, Hcfg.
  apply load_config_success in Hcfg as (key & Hkey & ->).
  rewrite setup_llm_outcome. unfold logged_raise.
  exists key.
  destruct Hfault as [->|[-> ->]];
    (eexists; split; [reflexivity|]; simpl;
     split; [apply lookup_insert_eq|auto]).
Qed.

(** X16. When an index is persisted and loading it raises [e],
    initialization raises [e]: it makes the one call to load, logs the
    error, and does not fall back to a new index. *)
Theorem X16_load_failure_is_fatal em idx e (s : Sys Vec) :
  disk s !! "vectorstore" = Some idx →
  load_local_fault ext = Some e →
  ∃ s',
    initialize_vector_store ext em s = (inl e, s')
    ∧ calls s' = (calls s ++ [CallLoadLocal "vectorstore"])%list
    ∧ log s' =
        (log s ++ [(ERROR, ("Error initializing vector store: " ++ str_e e)%string)])%list
    ∧ disk s' = disk s.
Proof.
  intros Hd Hload. rewrite initialize_vector_store_outcome, Hd. simpl.
  rewrite Hload. unfold logged_raise. eexists. split; [reflexivity|]. auto.
Qed.

End StartupSteps.

Lemma X9_witness :
  (initialize_vector_store Demo.healthy mkOpenAIEmbeddings
     (sys (process_document Demo.healthy Demo.note Demo.note_metadata Demo.app).2)).1 =
    inr [Demo.placeholder; Demo.note_entry Demo.note_metadata].
Proof.
  rewrite (X9_restart_reloads_persisted Demo.healthy Demo.healthy mkOpenAIEmbeddings
             Demo.note Demo.note_metadata Demo.app eq_refl eq_refl eq_refl).
  reflexivity.
Defined.

Lemma X12_witness :
  ∃ s',
    DocumentAnalyzer_init Demo.healthy "missing.yaml" Demo.fresh_sys =
      (inl (Exn FileNotFoundError "No such file or directory"), s')
    ∧ environ s' = ∅
    ∧ calls s' = []
    ∧ log s' = [(ERROR, "Error loading config: No such file or directory")].
Proof.
  apply (X12_config_failure_stops_startup Demo.healthy "missing.yaml" Demo.fresh_sys
           (Exn FileNotFoundError "No such file or directory")).
  reflexivity.
Defined.

Lemma X13_witness :
  ∃ e s',
    startup
      (Demo.with_yaml (inr (YMap [(YStr "openai_api_key", YInt 42)])) Demo.healthy)
      Demo.fresh_sys = (inl e, s')
    ∧ (exn_cls e = TypeError ∨ exn_cls e = ValueError)
    ∧ environ s' = ∅.
Proof.
  apply (X13_credential_must_be_text
           (Demo.with_yaml (inr (YMap [(YStr "openai_api_key", YInt 42)])) Demo.healthy)
           "config/config.yaml" "openai_api_key: sk-demo"
           (YMap [(YStr "openai_api_key", YInt 42)]) (YInt 42) Demo.fresh_sys);
    try reflexivity.
  intros key Hkey. discriminate Hkey.
Defined.

Lemma X14_witness :
  ∃ an s',
    startup Demo.healthy Demo.fresh_sys = (inr an, s')
    ∧ environ s' = <["OPENAI_API_KEY" := "sk-demo"]> ∅.
Proof.
  eexists _, _. split; [reflexivity|].
  destruct (X14_environ_only_api_key Demo.healthy "config/config.yaml"
              Demo.fresh_sys _ _ eq_refl) as (key & Hkey & Henv & _).
  rewrite Henv. injection Hkey as <-. reflexivity.
Defined.

Lemma X15_witness :
  ∃ s',
    startup (Demo.with_llm_fault (Some Demo.boom) Demo.healthy) Demo.fresh_sys =
      (inl Demo.boom, s')
    ∧ environ s' !! "OPENAI_API_KEY" = Some "sk-demo"
    ∧ calls s' = [].
Proof.
  destruct (X15_llm_failure_after_export
              (Demo.with_llm_fault (Some Demo.boom) Demo.healthy)
              "config/config.yaml" _ _ Demo.boom Demo.fresh_sys eq_refl
              (or_introl eq_refl)) as (key & s' & Hinit & Henv & Hkey & Hcalls & _).
  exists s'. split; [exact Hinit|]. split; [|exact Hcalls].
  rewrite Henv. injection Hkey as <-. reflexivity.
Defined.

Lemma X16_witness :
  ∃ s',
    initialize_vector_store (Demo.with_load_local_fault (Some Demo.boom) Demo.healthy)
      mkOpenAIEmbeddings (Demo.persisted_sys [Demo.placeholder]) = (inl Demo.boom, s')
    ∧ calls s' = [CallLoadLocal "vectorstore"].
Proof.
  destruct (X16_load_failure_is_fatal
              (Demo.with_load_local_fault (Some Demo.boom) Demo.healthy)
              mkOpenAIEmbeddings [Demo.placeholder] Demo.boom
              (Demo.persisted_sys [Demo.placeholder]) eq_refl eq_refl)
    as (s' & H1 & H2 & _).
  exists s'. split; assumption.
Defined.

(** ** What a sequence of requests keeps *)

Section Sessions.

Context {Vec : Type}.

(** A property of the state that every request keeps is kept by every
    sequence of requests. *)
Lemma serve_preserves (I : App Vec → Prop) :
  (∀ ext r a, I a → I (handle ext r a).2) →
  ∀ rs a, I a → I (serve rs a).2.
Proof.
  intros Hstep rs. induction rs as [|[ext r] rs IH]; intros a Ha; [exact Ha|].
  simpl. specialize (Hstep ext r a Ha).
  destruct (handle ext r a) as [out a1]. specialize (IH a1 Hstep).
  destruct (serve rs a1) as [outs a2]. exact IH.
Qed.

(** A reflexive and transitive relation between the state before and
    after that every request establishes holds across every sequence. *)
Lemma serve_relates (R : App Vec → App Vec → Prop) :
  (∀ a, R a a) →
  (∀ a b c, R a b → R b c → R a c) →
  (∀ ext r a, R a (handle ext r a).2) →
  ∀ rs a, R a (serve rs a).2.
Proof.
  intros Hrefl Htrans Hstep rs. induction rs as [|[ext r] rs IH]; intros a;
    [apply Hrefl|].
  simpl. specialize (Hstep ext r a).
  destruct (handle ext r a) as [out a1]. specialize (IH a1).
  destruct (serve rs a1) as [outs a2]. simpl in *. eauto.
Qed.

(** X18. Under every sequence of requests, an index that is non-empty
    stays non-empty, and so does what is persisted at ["vectorstore"]. *)
Theorem X18_nonempty_is_kept rs (a : App Vec) :
  vector_store (analyzer a) ≠ [] →
  (∀ idx, disk (sys a) !! "vectorstore" = Some idx → idx ≠ []) →
  vector_store (analyzer (serve rs a).2) ≠ []
  ∧ (∀ idx, disk (sys (serve rs a).2) !! "vectorstore" = Some idx → idx ≠ []).
Proof.
  intros Hmem Hdisk.
  apply (serve_preserves
           (λ a, vector_store (analyzer a) ≠ []
                 ∧ ∀ idx, disk (sys a) !! "vectorstore" = Some idx → idx ≠ [])).
  - intros ext r a0 [H1 H2]. apply handle_keeps_nonempty; assumption.
  - split; assumption.
Qed.

(** X19. If what is persisted at ["vectorstore"] is a prefix of the
    in-memory index, as it is after startup, then after every sequence
    of requests during which no save fails it still is, and what was
    persisted before is a prefix of what is persisted after: the
    persisted index only grows. *)
Theorem X19_persisted_index_grows (rs : list (Externals Vec * request)) idx
    (a : App Vec) :
  Forall (λ er, save_local_fault er.1 = None) rs →
  disk (sys a) !! "vectorstore" = Some idx →
  idx `prefix_of` vector_store (analyzer a) →
  ∃ idx',
    disk (sys (serve rs a).2) !! "vectorstore" = Some idx'
    ∧ idx `prefix_of` idx'
    ∧ idx' `prefix_of` vector_store (analyzer (serve rs a).2).
Proof.
  intros _ Hd Hpre.
  apply (serve_preserves
           (λ a, ∃ idx', disk (sys a) !! "vectorstore" = Some idx'
                   ∧ idx `prefix_of` idx'
                   ∧ idx' `prefix_of` vector_store (analyzer a))).
  - intros ext r a0 (idx0 & Hd0 & Hp0 & Hm0).
    destruct (handle_effect ext r a0) as (added & p & cs & lg & t & ->). simpl.
    assert (idx0 `prefix_of` (vector_store (analyzer a0) ++ added)%list) as Hgrow.
    { etrans; [exact Hm0|]. apply prefix_app_r. reflexivity. }
    destruct p.
    + eexists. split; [apply lookup_insert_eq|]. split; [|reflexivity].
      etrans; eassumption.
    + exists idx0. auto.
  - exists idx. split; [exact Hd|]. split; [reflexivity|exact Hpre].
Qed.

(** X20. Of the vector-store directories, no sequence of requests writes
    any but the one at ["vectorstore"]: what is persisted at every other
    path is as it was.  The log file is written too, and only appended
    to. *)
Theorem X20_only_vectorstore_is_written rs path (a : App Vec) :
  path ≠ "vectorstore" →
  disk (sys (serve rs a).2) !! path = disk (sys a) !! path
  ∧ log (sys a) `prefix_of` log (sys (serve rs a).2).
Proof.
  intros Hne.
  apply (serve_relates
           (λ a b, disk (sys b) !! path = disk (sys a) !! path
                   ∧ log (sys a) `prefix_of` log (sys b))).
  - intros a0. split; reflexivity.
  - intros a0 b c [H1 L1] [H2 L2]. split; [congruence|etrans; eassumption].
  - intros ext r a0.
    destruct (handle_effect ext r a0) as (added & p & cs & lg & t & ->). simpl.
    split; [|apply prefix_app_r; reflexivity].
    destruct p; [|reflexivity]. apply lookup_insert_ne. congruence.
Qed.

(** X21. No sequence of requests changes the environment, the loaded
    configuration, the model handle or the embeddings handle. *)
Theorem X21_requests_keep_configuration rs (a : App Vec) :
  environ (sys (serve rs a).2) = environ (sys a)
  ∧ config (analyzer (serve rs a).2) = config (analyzer a)
  ∧ llm (analyzer (serve rs a).2) = llm (analyzer a)
  ∧ embeddings (analyzer (serve rs a).2) = embeddings (analyzer a).
Proof.
  apply (serve_relates
           (λ a b, environ (sys b) = environ (sys a)
                   ∧ config (analyzer b) = config (analyzer a)
                   ∧ llm (analyzer b) = llm (analyzer a)
                   ∧ embeddings (analyzer b) = embeddings (analyzer a))).
  - auto.
  - intros a0 b c (? & ? & ? & ?) (? & ? & ? & ?). repeat split; congruence.
  - intros ext r a0.
    destruct (handle_effect ext r a0) as (added & p & cs & lg & t & ->). simpl. auto.
Qed.

(** Every request is answered with status 200, 400 or 500. *)
Lemma handle_answers (ext : Externals Vec) r (a : App Vec) :
  ∃ response,
    (handle ext r a).1 = inr response
    ∧ (status_code response = 200 ∨ status_code response = 400
       ∨ status_code response = 500).
Proof.
  destruct r as [|file|question]; simpl.
  - eexists. split; [reflexivity|]. auto.
  - rewrite analyze_document_outcome.
    destruct (read file) as [e|payload]; [eexists; split; [reflexivity|]; simpl; auto|].
    case_bool_decide; [eexists; split; [reflexivity|]; simpl; auto|].
    destruct (decode_utf8 payload) as [e|content];
      [eexists; split; [reflexivity|]; simpl; auto|].
    destruct (process_document ext content _ _) as [[e|result] a'];
      eexists; (split; [reflexivity|]); simpl; auto.
  - rewrite query_documents_outcome.
    destruct (qa_run ext _ question); eexists; (split; [reflexivity|]); simpl; auto.
Qed.

(** X22. A sequence of requests yields one outcome per request, and each
    outcome is a response with status 200, 400 or 500: no exception
    leaves a handler, whatever the collaborators do. *)
Theorem X22_every_request_is_answered rs (a : App Vec) :
  length (serve rs a).1 = length rs
  ∧ Forall (λ out, ∃ response,
              out = inr response
              ∧ (status_code response = 200 ∨ status_code response = 400
                 ∨ status_code response = 500))
      (serve rs a).1.
Proof.
  revert a. induction rs as [|[ext r] rs IH]; intros a; simpl; [auto|].
  destruct (handle_answers ext r a) as (response & Hout & Hstatus).
  destruct (handle ext r a) as [out a1]. simpl in Hout. subst out.
  destruct (IH a1) as [Hlen Hall].
  destruct (serve rs a1) as [outs a2]. simpl in *.
  split; [congruence|]. constructor; eauto.
Qed.

(** X23. After a startup that found nothing persisted, the placeholder
    ["initialization"] is the first entry of the index and stays the
    first entry under every sequence of requests. *)
Theorem X23_placeholder_stays_first (ext : Externals Vec) path rs an
    (s s' : Sys Vec) :
  disk s !! "vectorstore" = None →
  DocumentAnalyzer_init ext path s = (inr an, s') →
  vector_store (analyzer (serve rs {| analyzer := an; sys := s' |}).2) !! 0%nat =
    Some {| page_content := "initialization";
            embedding := embed ext "initialization"; metadata := [] |}.
Proof.
  intros Hd Hinit.
  apply DocumentAnalyzer_init_inv in Hinit as (s1 & s2 & Hcfg & Hllm & Hvs).
  apply load_config_success in Hcfg as (key & _ & ->).
  apply setup_llm_state in Hllm as ->.
  rewrite initialize_vector_store_outcome in Hvs. simpl in Hvs. rewrite Hd in Hvs.
  unfold logged_raise in Hvs.
  destruct (embed_fault ext _); [discriminate|]. injection Hvs as Hvs _.
  destruct (serve_store_grows rs {| analyzer := an; sys := s' |}) as [k Hk].
  rewrite Hk. simpl. rewrite <- Hvs. reflexivity.
Qed.

End Sessions.

Lemma X18_witness :
  vector_store
    (analyzer (serve [(Demo.healthy, POST_analyze Demo.note_upload)] Demo.app).2) ≠ [].
Proof.
  assert (∀ idx : Index Z, disk (sys Demo.app) !! "vectorstore" = Some idx → idx ≠ [])
    as Hdisk.
  { intros idx Hidx. vm_compute in Hidx. discriminate. }
  assert (vector_store (analyzer Demo.app) ≠ []) as Hmem by discriminate.
  exact (proj1 (X18_nonempty_is_kept [(Demo.healthy, POST_analyze Demo.note_upload)]
                  Demo.app Hmem Hdisk)).
Defined.

Lemma X19_witness :
  ∃ idx',
    disk (sys (serve [(Demo.healthy, POST_analyze Demo.note_upload)]
                 Demo.synced_app).2) !! "vectorstore" = Some idx'
    ∧ [Demo.placeholder] `prefix_of` idx'
    ∧ idx' `prefix_of`
        vector_store
          (analyzer (serve [(Demo.healthy, POST_analyze Demo.note_upload)]
                       Demo.synced_app).2).
Proof.
  apply (X19_persisted_index_grows [(Demo.healthy, POST_analyze Demo.note_upload)]
           [Demo.placeholder] Demo.synced_app).
  - repeat constructor.
  - reflexivity.
  - reflexivity.
Defined.

Lemma X20_witness :
  disk (sys (serve [(Demo.healthy, POST_analyze Demo.note_upload)] Demo.app).2)
    !! "elsewhere" = None.
Proof.
  assert ("elsewhere" ≠ "vectorstore") as Hne by discriminate.
  rewrite (proj1 (X20_only_vectorstore_is_written
                    [(Demo.healthy, POST_analyze Demo.note_upload)] "elsewhere"
                    Demo.app Hne)).
  reflexivity.
Defined.

Lemma X23_witness :
  ∃ an s',
    startup Demo.healthy Demo.fresh_sys = (inr an, s')
    ∧ vector_store
        (analyzer
           (serve [(Demo.healthy, POST_analyze Demo.note_upload);
                   (Demo.healthy, GET_query "What is brewed?")]
              {| analyzer := an; sys := s' |}).2) !! 0%nat
      = Some Demo.placeholder.
Proof.
  eexists _, _. split; [reflexivity|].
  apply (X23_placeholder_stays_first Demo.healthy "config/config.yaml" _ _
           Demo.fresh_sys); reflexivity.
Defined.

(** ** Further compositions and edge cases *)

Section Compositions.

Context {Vec : Type}.

(** X24. Two ingestions whose insertions succeed leave the index as the
    earlier entries, then the chunks of the first document, then the
    chunks of the second, whatever happens to their persisting and
    summarization. *)
Theorem X24_ingestions_accumulate (ext1 ext2 : Externals Vec)
    c1 (md1 : Dict) c2 (md2 : Dict) (a : App Vec) :
  embed_fault ext1 (chunks_of ext1 c1) = None →
  embed_fault ext2 (chunks_of ext2 c2) = None →
  vector_store
    (analyzer (process_document ext2 c2 md2 (process_document ext1 c1 md1 a).2).2) =
    (vector_store (analyzer a) ++ inserted ext1 c1 md1 ++ inserted ext2 c2 md2)%list.
Proof.
  intros H1 H2.
  rewrite (process_document_store ext2 _ _ _ H2).
  rewrite (process_document_store ext1 _ _ _ H1).
  rewrite <- app_assoc. reflexivity.
Qed.

Lemma find_existsb_false {A} (f : A → bool) l :
  existsb f l = false → List.find f l = None.
Proof.
  induction l as [|x l IH]; [reflexivity|]. simpl.
  destruct (f x); [discriminate|]. exact IH.
Qed.

(** X25. A settings file that parses to a mapping without the key
    ['openai_api_key'] makes construction raise a [KeyError] whose text
    is the quoted key; it is logged as ["Error loading config:
    'openai_api_key'"] and the environment is unchanged. *)
Theorem X25_missing_key_is_key_error (ext : Externals Vec) path file items
    (s : Sys Vec) :
  open_read ext path = inr file →
  yaml_safe_load ext file = inr (YMap items) →
  has_key (YMap items) "openai_api_key" = false →
  ∃ s',
    DocumentAnalyzer_init ext path s = (inl (Exn KeyError "'openai_api_key'"), s')
    ∧ log s' = (log s ++ [(ERROR, "Error loading config: 'openai_api_key'")])%list
    ∧ environ s' = environ s.
Proof.
  intros Hopen Hyaml Hno. rewrite DocumentAnalyzer_init_outcome.
  rewrite load_config_outcome, Hopen, Hyaml. simpl in *.
  rewrite (find_existsb_false _ _ Hno). unfold logged_raise.
  eexists. split; [reflexivity|]. auto.
Qed.

End Compositions.

Lemma X24_witness :
  vector_store
    (analyzer
       (process_document Demo.healthy Demo.note Demo.note_metadata
          (process_document (Demo.ext None (Some Demo.boom) (inr "unused"))
             "Tea needs less heat." [] Demo.app).2).2) =
    [Demo.placeholder;
     {| page_content := "Tea needs less heat."; embedding := 20; metadata := [] |};
     Demo.note_entry Demo.note_metadata].
Proof.
  rewrite (X24_ingestions_accumulate
             (Demo.ext None (Some Demo.boom) (inr "unused")) Demo.healthy
             "Tea needs less heat." [] Demo.note Demo.note_metadata Demo.app
             eq_refl eq_refl).
  reflexivity.
Defined.

Lemma X25_witness :
  ∃ s',
    startup (Demo.with_yaml (inr (YMap [(YStr "model", YStr "gpt-4")])) Demo.healthy)
      Demo.fresh_sys = (inl (Exn KeyError "'openai_api_key'"), s')
    ∧ log s' = [(ERROR, "Error loading config: 'openai_api_key'")]
    ∧ environ s' = ∅.
Proof.
  apply (X25_missing_key_is_key_error
           (Demo.with_yaml (inr (YMap [(YStr "model", YStr "gpt-4")])) Demo.healthy)
           "config/config.yaml" "openai_api_key: sk-demo"
           [(YStr "model", YStr "gpt-4")] Demo.fresh_sys); reflexivity.
Defined.

(** ** The index is never empty *)

Section NeverEmpty.

Context {Vec : Type}.

Lemma serve_keeps_nonempty rs (a : App Vec) :
  vector_store (analyzer a) ≠ [] →
  (∀ idx, disk (sys a) !! "vectorstore" = Some idx → idx ≠ []) →
  vector_store (analyzer (serve rs a).2) ≠ []
  ∧ (∀ idx, disk (sys (serve rs a).2) !! "vectorstore" = Some idx → idx ≠ []).
Proof.
  intros Hmem Hdisk.
  apply (serve_preserves
           (λ a, vector_store (analyzer a) ≠ []
                 ∧ ∀ idx, disk (sys a) !! "vectorstore" = Some idx → idx ≠ [])).
  - intros ext r a0 [H1 H2]. apply handle_keeps_nonempty; assumption.
  - split; assumption.
Qed.

(** A constructed analyzer leaves the persisted indexes as they were. *)
Lemma DocumentAnalyzer_init_disk_eq (ext : Externals Vec) path (s : Sys Vec) r s' :
  DocumentAnalyzer_init ext path s = (r, s') → disk s' = disk s.
Proof.
  intros H. pose proof (DocumentAnalyzer_init_disk ext path s) as Hd.
  rewrite H in Hd. exact Hd.
Qed.

(** On every machine that the program can find at startup, what is
    persisted at ["vectorstore"], if anything, is a non-empty index. *)
Lemma reachable_persisted_nonempty (s : Sys Vec) :
  reachable s → ∀ idx : Index Vec, disk s !! "vectorstore" = Some idx → idx ≠ [].
Proof.
  induction 1 as [s Hd|ext path s e s' _ IH Hinit|ext path rs s an s' _ IH Hinit];
    intros idx Hidx.
  - rewrite Hd in Hidx. discriminate.
  - apply (DocumentAnalyzer_init_disk_eq _ _ _ _ _) in Hinit.
    rewrite Hinit in Hidx. eauto.
  - pose proof (DocumentAnalyzer_init_disk_eq _ _ _ _ _ Hinit) as Hdisk.
    destruct (initial_index_cases ext mkOpenAIEmbeddings s) as (_ & _ & Hne).
    specialize (Hne path an s' IH Hinit).
    destruct (serve_keeps_nonempty rs {| analyzer := an; sys := s' |}) as [_ Hkept];
      [exact Hne| |eauto].
    simpl. rewrite Hdisk. exact IH.
Qed.

(** C6. At startup, a persisted index at ["vectorstore"] is loaded from
    disk as it is; when none is persisted, the new index holds exactly
    one entry, the placeholder ["initialization"].  On every machine
    that the program can find (nothing persisted yet, or whatever earlier
    runs of the program left), the index of the constructed analyzer is
    non-empty, and it stays non-empty under every sequence of
    requests. *)
Theorem C6_index_never_empty (ext : Externals Vec) path em (s : Sys Vec) :
  reachable s →
  (∀ idx, disk s !! "vectorstore" = Some idx → load_local_fault ext = None →
     (initialize_vector_store ext em s).1 = inr idx)
  ∧ (disk s !! "vectorstore" = None → embed_fault ext ["initialization"] = None →
     (initialize_vector_store ext em s).1 =
       inr [{| page_content := "initialization";
               embedding := embed ext "initialization"; metadata := [] |}])
  ∧ (∀ an s',
       DocumentAnalyzer_init ext path s = (inr an, s') →
       vector_store an ≠ []
       ∧ ∀ rs,
           vector_store (analyzer (serve rs {| analyzer := an; sys := s' |}).2) ≠ []).
Proof.
  intros Hreach.
  destruct (initial_index_cases ext em s) as (Hload & Hnew & Hne).
  split; [exact Hload|]. split; [exact Hnew|].
  intros an s' Hinit.
  pose proof (reachable_persisted_nonempty s Hreach) as Hdisk.
  pose proof (Hne path an s' Hdisk Hinit) as Han.
  split; [exact Han|]. intros rs.
  apply serve_keeps_nonempty; [exact Han|].
  simpl. rewrite (DocumentAnalyzer_init_disk_eq _ _ _ _ _ Hinit). exact Hdisk.
Qed.

End NeverEmpty.

(** A machine with an index without entries persisted is not one that
    the program can find. *)
Example empty_persisted_not_reachable : ¬ reachable Demo.empty_persisted_sys.
Proof.
  intros Hreach.
  apply (reachable_persisted_nonempty _ Hreach []); reflexivity.
Qed.

Lemma C6_witness :
  (initialize_vector_store Demo.healthy mkOpenAIEmbeddings Demo.fresh_sys).1 =
    inr [{| page_content := "initialization"; embedding := 14; metadata := [] |}]
  ∧ (∃ an s', startup Demo.healthy Demo.fresh_sys = (inr an, s')
       ∧ vector_store an ≠ [])
  ∧ ∃ s1 md an s',
      reachable s1
      ∧ disk s1 !! "vectorstore" = Some [Demo.placeholder; Demo.note_entry md]
      ∧ startup Demo.healthy s1 = (inr an, s')
      ∧ vector_store an ≠ [].
Proof.
  assert (reachable Demo.fresh_sys) as Hfresh.
  { apply reachable_fresh. reflexivity. }
  eassert (startup Demo.healthy Demo.fresh_sys = (inr _, _)) as Hstart.
  { reflexivity. }
  pose proof (reachable_run Demo.healthy "config/config.yaml"
                [(Demo.healthy, POST_analyze Demo.note_upload)] Demo.fresh_sys
                _ _ Hfresh Hstart) as Hrun.
  destruct (C6_index_never_empty Demo.healthy "config/config.yaml" mkOpenAIEmbeddings
              Demo.fresh_sys Hfresh) as (_ & Hnew & Hne).
  destruct (C6_index_never_empty Demo.healthy "config/config.yaml" mkOpenAIEmbeddings
              _ Hrun) as (_ & _ & Hne').
  split; [apply Hnew; reflexivity|]. split.
  - eexists _, _. split; [exact Hstart|]. eapply Hne. exact Hstart.
  - eexists _, _, _, _. split; [exact Hrun|]. split; [reflexivity|].
    split; [reflexivity|]. eapply Hne'. reflexivity.
Defined.
